(** * FEFO lot selection and batch creation of the manufacturer actions

    A shallow embedding of [auto_select_lots_fefo], [create_product_batch]
    and [trace_product_recall] from [DBMS_final/app/manufacturer_actions.py],
    followed by the functions of the same file that manage recipe plans
    ([create_recipe_plan], [_add_recipe_ingredients], [update_recipe_plan],
    [delete_recipe_plan]) and product types ([create_product_type],
    [update_product_type], [delete_product_type]).

    The Python code keeps no state of its own: every effect is a SQL
    statement sent through [run_query].  The embedding therefore threads a
    [database] value through the functions.  Tables that the code addresses
    by primary key are finite maps from the key to the remaining columns;
    [recipe_plan_item] and [staging_consumption], which are read as row
    sets, are lists in insertion order.

    Quantities are the DECIMAL values of the [*_oz] columns, counted in the
    smallest unit the columns can hold, hence integers.  The conversion of
    these values to Python floats is not modelled: arithmetic is exact.
    Dates are day numbers, [today] standing for [CURDATE()].  Names are
    ordered bytewise where the statements say [ORDER BY ... name].

    What the functions print is not modelled, except that the message of a
    returned triple and the way a run ends are kept as values.  Runs of
    [auto_select_lots_fefo] in which [run_query] raises are not modelled;
    the stored procedures, which are not part of the Python sources, are
    parameters. *)

From stdpp Require Import gmap strings list sorting.

Local Open Scope Z_scope.

(** ** Tables *)

Record ingredient := {
  ingredient_name : string;
  is_compound : bool
}.

Record supplier := {
  supplier_name : string
}.

Record ingredient_batch := {
  ib_ingredient_id : string;
  ib_supplier_id : Z;
  ib_lot_number : string;
  ib_on_hand_oz : Z;
  ib_expiration_date : Z
}.

Record recipe_plan := {
  rp_product_type_id : Z
}.

Record product_type := {
  pt_manufacturer_id : string;
  pt_name : string;
  pt_standard_batch_units : Z
}.

Record recipe_plan_item := {
  rpi_recipe_plan_id : Z;
  rpi_ingredient_id : string;
  rpi_qty_oz_per_unit : Z
}.

Record staging_consumption := {
  sc_session_token : string;
  sc_ingredient_batch_id : Z;
  sc_qty_oz : Z
}.

Record database := {
  ingredient_tbl : gmap string ingredient;
  supplier_tbl : gmap Z supplier;
  ingredient_batch_tbl : gmap Z ingredient_batch;
  recipe_plan_tbl : gmap Z recipe_plan;
  product_type_tbl : gmap Z product_type;
  recipe_plan_item_tbl : list recipe_plan_item;
  staging_consumption_tbl : list staging_consumption
}.

Definition with_staging (db : database) (rows : list staging_consumption) : database :=
  {| ingredient_tbl := ingredient_tbl db;
     supplier_tbl := supplier_tbl db;
     ingredient_batch_tbl := ingredient_batch_tbl db;
     recipe_plan_tbl := recipe_plan_tbl db;
     product_type_tbl := product_type_tbl db;
     recipe_plan_item_tbl := recipe_plan_item_tbl db;
     staging_consumption_tbl := rows |}.

(** [INSERT INTO staging_consumption (session_token, ingredient_batch_id, qty_oz)
    VALUES (%s, %s, %s)] *)
Definition insert_staging (session_token : string) (batch_id qty : Z)
    (db : database) : database :=
  with_staging db
    (staging_consumption_tbl db ++
       [ {| sc_session_token := session_token;
            sc_ingredient_batch_id := batch_id;
            sc_qty_oz := qty |} ]).

(** [DELETE FROM staging_consumption WHERE session_token = %s] *)
Definition delete_staging (session_token : string) (db : database) : database :=
  with_staging db
    (filter (fun r => sc_session_token r <> session_token)
       (staging_consumption_tbl db)).

(** Python's [sum] over a generator of quantities. *)
Definition sum_oz (l : list Z) : Z := foldr Z.add 0 l.

(** ** The queries of [auto_select_lots_fefo] *)

(** A row of the recipe query: the [recipe_plan_item] line joined with its
    [ingredient], with [total_qty_needed = qty_oz_per_unit * produced_units]. *)
Record recipe_item_row := {
  ri_ingredient_id : string;
  ri_ingredient_name : string;
  ri_qty_oz_per_unit : Z;
  ri_total_qty_needed : Z
}.

Definition recipe_item_select (db : database) (recipe_plan_id produced_units : Z)
    (rpi : recipe_plan_item) : option recipe_item_row :=
  match ingredient_tbl db !! rpi_ingredient_id rpi with
  | Some i =>
      if rpi_recipe_plan_id rpi =? recipe_plan_id
      then Some {| ri_ingredient_id := rpi_ingredient_id rpi;
                   ri_ingredient_name := ingredient_name i;
                   ri_qty_oz_per_unit := rpi_qty_oz_per_unit rpi;
                   ri_total_qty_needed := rpi_qty_oz_per_unit rpi * produced_units |}
      else None
  | None => None
  end.

(** [ORDER BY i.name] *)
Definition by_name (a b : recipe_item_row) : Prop :=
  Is_true (String.leb (ri_ingredient_name a) (ri_ingredient_name b)).

Definition recipe_items_query (db : database) (recipe_plan_id produced_units : Z)
    : list recipe_item_row :=
  merge_sort by_name
    (omap (recipe_item_select db recipe_plan_id produced_units)
       (recipe_plan_item_tbl db)).

(** A row of the lot query. *)
Record batch_row := {
  br_ingredient_batch_id : Z;
  br_lot_number : string;
  br_on_hand_oz : Z;
  br_expiration_date : Z;
  br_supplier_name : string;
  br_days_until_expiry : Z
}.

(** [FROM ingredient_batch ib JOIN supplier s ON ib.supplier_id = s.supplier_id
     WHERE ib.ingredient_id = %s AND ib.on_hand_oz > 0
       AND ib.expiration_date >= CURDATE()] *)
Definition batch_select (today : Z) (db : database) (ingredient_id : string)
    (kv : Z * ingredient_batch) : option batch_row :=
  match supplier_tbl db !! ib_supplier_id kv.2 with
  | Some s =>
      if String.eqb (ib_ingredient_id kv.2) ingredient_id
         && (0 <? ib_on_hand_oz kv.2)
         && (today <=? ib_expiration_date kv.2)
      then Some {| br_ingredient_batch_id := kv.1;
                   br_lot_number := ib_lot_number kv.2;
                   br_on_hand_oz := ib_on_hand_oz kv.2;
                   br_expiration_date := ib_expiration_date kv.2;
                   br_supplier_name := supplier_name s;
                   br_days_until_expiry := ib_expiration_date kv.2 - today |}
      else None
  | None => None
  end.

(** [ORDER BY ib.expiration_date ASC, ib.ingredient_batch_id ASC] *)
Definition fefo_leb (a b : batch_row) : bool :=
  (br_expiration_date a <? br_expiration_date b)
  || ((br_expiration_date a =? br_expiration_date b)
      && (br_ingredient_batch_id a <=? br_ingredient_batch_id b)).

Definition fefo_order (a b : batch_row) : Prop := Is_true (fefo_leb a b).

Definition available_batches_query (today : Z) (db : database)
    (ingredient_id : string) : list batch_row :=
  merge_sort fefo_order
    (omap (batch_select today db ingredient_id)
       (map_to_list (ingredient_batch_tbl db))).

(** The counting query of the no-lot branch:
    [COUNT( * )], [SUM(CASE WHEN on_hand_oz > 0 ...)],
    [SUM(CASE WHEN expiration_date < CURDATE() ...)]
    over [ingredient_batch WHERE ingredient_id = %s]. *)
Record batch_counts := {
  total_count : Z;
  with_stock : Z;
  expired : Z
}.

Definition batches_of (db : database) (ingredient_id : string)
    : list (Z * ingredient_batch) :=
  filter (fun kv => ib_ingredient_id kv.2 = ingredient_id)
    (map_to_list (ingredient_batch_tbl db)).

Definition all_batches_query (today : Z) (db : database) (ingredient_id : string)
    : batch_counts :=
  let rows := batches_of db ingredient_id in
  {| total_count := Z.of_nat (length rows);
     with_stock :=
       Z.of_nat (length (filter (fun kv => 0 < ib_on_hand_oz kv.2) rows));
     expired :=
       Z.of_nat (length (filter (fun kv => ib_expiration_date kv.2 < today) rows)) |}.

(** ** [auto_select_lots_fefo] *)

(** The messages of the returned triples, with the values the f-strings
    interpolate. *)
Inductive fefo_message :=
| NoIngredientsFound
| NoAvailableLots (ingredient_name : string) (counts : batch_counts)
| NoBatchesExist (ingredient_name : string)
| InsufficientTotal (ingredient_name : string)
    (need : Z) (lots : Z) (available : Z) (shortage : Z)
| InsufficientQuantity (ingredient_name : string) (more : Z)
| SuccessfullySelected (lots : Z).

Definition fefo_result : Type := bool * fefo_message * Z.

(** The variables of the inner [for batch in available_batches] loop. *)
Record selection := {
  sel_db : database;
  qty_remaining : Z;
  lots_for_ingredient : Z;
  total_lots_selected : Z
}.

Fixpoint select_lots (session_token : string) (available_batches : list batch_row)
    (s : selection) : selection :=
  match available_batches with
  | [] => s
  | batch :: rest =>
      if qty_remaining s <=? 0 then s
      else
        let batch_id := br_ingredient_batch_id batch in
        let on_hand := br_on_hand_oz batch in
        let qty_to_take := Z.min (qty_remaining s) on_hand in
        select_lots session_token rest
          {| sel_db := insert_staging session_token batch_id qty_to_take (sel_db s);
             qty_remaining := qty_remaining s - qty_to_take;
             lots_for_ingredient := lots_for_ingredient s + 1;
             total_lots_selected := total_lots_selected s + 1 |}
  end.

(** The body of [for item in recipe_items], with its early returns. *)
Fixpoint select_items (today : Z) (session_token : string)
    (recipe_items : list recipe_item_row) (db : database) (total : Z)
    : database * fefo_result :=
  match recipe_items with
  | [] => (db, (true, SuccessfullySelected total, total))
  | item :: rest =>
      let ingredient_id := ri_ingredient_id item in
      let ingredient_name := ri_ingredient_name item in
      let qty_needed := ri_total_qty_needed item in
      let available_batches := available_batches_query today db ingredient_id in
      match available_batches with
      | [] =>
          let info := all_batches_query today db ingredient_id in
          if 0 <? total_count info
          then (db, (false, NoAvailableLots ingredient_name info, 0))
          else (db, (false, NoBatchesExist ingredient_name, 0))
      | _ :: _ =>
          let total_available := sum_oz (br_on_hand_oz <$> available_batches) in
          if total_available <? qty_needed
          then (db, (false,
                     InsufficientTotal ingredient_name qty_needed
                       (Z.of_nat (length available_batches)) total_available
                       (qty_needed - total_available),
                     0))
          else
            let s := select_lots session_token available_batches
                       {| sel_db := db;
                          qty_remaining := qty_needed;
                          lots_for_ingredient := 0;
                          total_lots_selected := total |} in
            if 0 <? qty_remaining s
            then (delete_staging session_token (sel_db s),
                  (false, InsufficientQuantity ingredient_name (qty_remaining s), 0))
            else select_items today session_token rest (sel_db s)
                   (total_lots_selected s)
      end
  end.

Definition auto_select_lots_fefo (today : Z) (recipe_plan_id produced_units : Z)
    (session_token : string) (db : database) : database * fefo_result :=
  match recipe_items_query db recipe_plan_id produced_units with
  | [] => (db, (false, NoIngredientsFound, 0))
  | recipe_items => select_items today session_token recipe_items db 0
  end.

(** ** The walk over the lots, as the specification words it

    Walk the eligible lots in order, take [min remaining on_hand] from each
    and record one staged allocation per lot touched, until nothing remains
    to be taken. *)

Definition allocation (session_token : string) (batch : batch_row) (qty : Z)
    : staging_consumption :=
  {| sc_session_token := session_token;
     sc_ingredient_batch_id := br_ingredient_batch_id batch;
     sc_qty_oz := qty |}.

Fixpoint fefo_walk (session_token : string) (lots : list batch_row)
    (remaining_needed : Z) : list staging_consumption :=
  match lots with
  | [] => []
  | lot :: rest =>
      if remaining_needed <=? 0 then []
      else
        let taken := Z.min remaining_needed (br_on_hand_oz lot) in
        allocation session_token lot taken
          :: fefo_walk session_token rest (remaining_needed - taken)
  end.

Definition staged_total (rows : list staging_consumption) : Z :=
  sum_oz (sc_qty_oz <$> rows).

Definition total_on_hand (lots : list batch_row) : Z :=
  sum_oz (br_on_hand_oz <$> lots).

(** The rows staged for one recipe line. *)
Definition item_rows (today : Z) (db : database) (session_token : string)
    (item : recipe_item_row) : list staging_consumption :=
  fefo_walk session_token
    (available_batches_query today db (ri_ingredient_id item))
    (ri_total_qty_needed item).

(** A recipe line that passes both stock checks. *)
Definition coverable (today : Z) (db : database) (item : recipe_item_row) : Prop :=
  available_batches_query today db (ri_ingredient_id item) <> []
  /\ ri_total_qty_needed item
     <= total_on_hand (available_batches_query today db (ri_ingredient_id item)).



(** ** [create_product_batch] *)

(** The [user] dictionary; [user.get('manufacturer_id')] is [None] when the
    key is missing. *)
Record user := {
  manufacturer_id : option string
}.

Definition _get_manufacturer_id (u : user) : option string := manufacturer_id u.

(** What [int(...)] makes of an answer: the answer was empty, [int] raises
    [ValueError], or [int] returns a number. *)
Inductive int_answer :=
| Blank
| NotInt
| Int (n : Z).

(** The answers to the prompts, as the code holds them after [.strip()]
    (and [.lower()] for the two yes/no prompts).  The recipe plan id is
    [None] for an empty answer and otherwise the id the statement compares
    the answer with. *)
Record batch_answers := {
  ans_recipe_plan_id : option Z;
  ans_batch_units : int_answer;
  ans_selection_choice : string;
  ans_proceed : string;
  ans_confirm : string
}.

(** The recipe plans listed at the start. *)
Record recipe_listing := {
  rl_recipe_plan_id : Z;
  rl_product_name : string;
  rl_standard_batch_units : Z;
  rl_num_ingredients : Z
}.

Definition recipe_listing_select (db : database) (mfg_id : string)
    (kv : Z * recipe_plan) : option recipe_listing :=
  match product_type_tbl db !! rp_product_type_id kv.2 with
  | Some pt =>
      if String.eqb (pt_manufacturer_id pt) mfg_id
      then Some {| rl_recipe_plan_id := kv.1;
                   rl_product_name := pt_name pt;
                   rl_standard_batch_units := pt_standard_batch_units pt;
                   rl_num_ingredients :=
                     Z.of_nat
                       (length
                          (filter (fun rpi => rpi_recipe_plan_id rpi = kv.1)
                             (recipe_plan_item_tbl db))) |}
      else None
  | None => None
  end.

Definition by_product_name (a b : recipe_listing) : Prop :=
  Is_true (String.leb (rl_product_name a) (rl_product_name b)).

Definition active_recipes_query (db : database) (mfg_id : string)
    : list recipe_listing :=
  merge_sort by_product_name
    (omap (recipe_listing_select db mfg_id) (map_to_list (recipe_plan_tbl db))).

(** [recipe_check]: the plan joined with its product type, for the
    manufacturer. *)
Definition recipe_check_query (db : database) (recipe_plan_id : Z)
    (mfg_id : string) : list product_type :=
  match recipe_plan_tbl db !! recipe_plan_id with
  | Some rp =>
      match product_type_tbl db !! rp_product_type_id rp with
      | Some pt => if String.eqb (pt_manufacturer_id pt) mfg_id then [pt] else []
      | None => []
      end
  | None => []
  end.

(** The staged rows shown before the confirmation, joined with their lot
    and ingredient. *)
Record staging_listing := {
  sl_ingredient_name : string;
  sl_lot_number : string;
  sl_qty_oz : Z;
  sl_on_hand_oz : Z;
  sl_expiration_date : Z
}.

Definition staging_listing_select (db : database) (sc : staging_consumption)
    : option staging_listing :=
  match ingredient_batch_tbl db !! sc_ingredient_batch_id sc with
  | Some ib =>
      match ingredient_tbl db !! ib_ingredient_id ib with
      | Some i => Some {| sl_ingredient_name := ingredient_name i;
                          sl_lot_number := ib_lot_number ib;
                          sl_qty_oz := sc_qty_oz sc;
                          sl_on_hand_oz := ib_on_hand_oz ib;
                          sl_expiration_date := ib_expiration_date ib |}
      | None => None
      end
  | None => None
  end.

(** [ORDER BY i.name, ib.expiration_date] *)
Definition by_name_then_expiry (a b : staging_listing) : Prop :=
  Is_true
    (String.ltb (sl_ingredient_name a) (sl_ingredient_name b)
     || (String.eqb (sl_ingredient_name a) (sl_ingredient_name b)
         && (sl_expiration_date a <=? sl_expiration_date b))).

(** [... WHERE sc.session_token = %s ORDER BY i.name, ib.expiration_date] *)
Definition session_staging_query (db : database) (session_token : string)
    : list staging_listing :=
  merge_sort by_name_then_expiry
    (omap (staging_listing_select db)
       (filter (fun r => sc_session_token r = session_token)
          (staging_consumption_tbl db))).

(** The listing of the second choice: no [WHERE] clause,
    [ORDER BY sc.consumption_id]. *)
Definition all_staging_query (db : database) : list staging_listing :=
  omap (staging_listing_select db) (staging_consumption_tbl db).

(** The parameters of [CALL sp_record_product_batch(%s, %s, %s, %s, %s)]. *)
Record batch_call := {
  call_session_token : string;
  call_product_type_id : Z;
  call_recipe_plan_id : Z;
  call_produced_units : Z;
  call_manufacturer_id : string
}.

(** The row the procedure returns. *)
Record created_batch := {
  product_batch_id : Z;
  product_lot_number : string;
  batch_cost : Z;
  unit_cost : Z
}.

(** How a run of [create_product_batch] ends; the function itself returns
    nothing and reports by printing.  The two last outcomes are those of the
    call of the procedure, with its parameters and the staged rows listed
    before the confirmation. *)
Inductive batch_outcome :=
| NoManufacturer
| NoRecipePlans
| NoRecipeChosen
| RecipeNotFound
| NoUnitsGiven
| InvalidQuantity
| FefoFailed (message : fefo_message)
| InvalidChoice
| NotProceeded
| NoProductType
| Cancelled
| BatchCreated (call : batch_call) (listed : list staging_listing)
    (result : list created_batch)
| CreationError (call : batch_call) (listed : list staging_listing).

(** Truth value of [session_token] in [if session_token:]. *)
Definition token_set (session_token : option string) : bool :=
  match session_token with
  | Some t => negb (String.eqb t "")
  | None => false
  end.

(** [if session_token: run_query("DELETE FROM staging_consumption WHERE
    session_token = %s", ...)] *)
Definition clean_up (session_token : option string) (db : database) : database :=
  match session_token with
  | Some t => if token_set session_token then delete_staging t db else db
  | None => db
  end.

Section Procedures.

(** The stored procedure [sp_record_product_batch] belongs to the schema
    file, which is not among the sources: it is a parameter.  It returns
    the rows of its result set, or [None] when the call raises, and the
    database it leaves. *)
Variable sp_record_product_batch :
  batch_call -> database -> option (list created_batch) * database.

(** From the recipe plan lookup to the end: the confirmation and the call. *)
Definition confirm_and_create (answers : batch_answers) (mfg_id : string)
    (recipe_plan_id batch_units : Z) (session_token : option string)
    (staging : list staging_listing) (db : database)
    : database * batch_outcome :=
  match recipe_plan_tbl db !! recipe_plan_id with
  | None => (db, NoProductType)
  | Some product_type_result =>
      let product_type_id := rp_product_type_id product_type_result in
      if negb (String.eqb (ans_confirm answers) "y")
      then (clean_up session_token db, Cancelled)
      else
        let params :=
          {| call_session_token :=
               match session_token with
               | Some t => if token_set session_token then t else ""
               | None => ""
               end;
             call_product_type_id := product_type_id;
             call_recipe_plan_id := recipe_plan_id;
             call_produced_units := batch_units;
             call_manufacturer_id := mfg_id |} in
        match sp_record_product_batch params db with
        | (Some result, db') => (db', BatchCreated params staging result)
        | (None, db') => (clean_up session_token db', CreationError params staging)
        end
  end.

(** The lot selection menu, from the generation of the session token on;
    [uuid] is the text of [uuid.uuid4()]. *)
Definition stage_and_create (answers : batch_answers) (mfg_id : string)
    (recipe_plan_id batch_units : Z) (uuid : string) (today : Z) (db : database)
    : database * batch_outcome :=
  let session_token := uuid in
  if String.eqb (ans_selection_choice answers) "1" then
    let '(db1, (success, message, lots_selected)) :=
      auto_select_lots_fefo today recipe_plan_id batch_units session_token db in
    if negb success then (db1, FefoFailed message)
    else
      confirm_and_create answers mfg_id recipe_plan_id batch_units
        (Some session_token) (session_staging_query db1 session_token) db1
  else if String.eqb (ans_selection_choice answers) "2" then
    let staging := all_staging_query db in
    match staging with
    | [] =>
        if negb (String.eqb (ans_proceed answers) "y") then (db, NotProceeded)
        else
          confirm_and_create answers mfg_id recipe_plan_id batch_units
            None staging db
    | _ :: _ =>
        confirm_and_create answers mfg_id recipe_plan_id batch_units
          None staging db
    end
  else (db, InvalidChoice).

Definition create_product_batch (u : user) (answers : batch_answers)
    (uuid : string) (today : Z) (db : database) : database * batch_outcome :=
  match _get_manufacturer_id u with
  | None => (db, NoManufacturer)
  | Some mfg_id =>
      if String.eqb mfg_id "" then (db, NoManufacturer)
      else
        match active_recipes_query db mfg_id with
        | [] => (db, NoRecipePlans)
        | _ :: _ =>
            match ans_recipe_plan_id answers with
            | None => (db, NoRecipeChosen)
            | Some recipe_plan_id =>
                match recipe_check_query db recipe_plan_id mfg_id with
                | [] => (db, RecipeNotFound)
                | _ :: _ =>
                    match ans_batch_units answers with
                    | Blank => (db, NoUnitsGiven)
                    | NotInt => (db, InvalidQuantity)
                    | Int batch_units =>
                        stage_and_create answers mfg_id recipe_plan_id
                          batch_units uuid today db
                    end
                end
            end
        end
  end.

(** ** [trace_product_recall] *)

(** What [.isdigit()] and [int(...)] make of the ingredient id answer. *)
Inductive id_answer :=
| IdBlank
| IdNotDigits
| IdDigits (n : Z).

Record trace_answers := {
  ans_trace_choice : string;
  ans_ingredient_id : id_answer;
  ans_lot_number : string;
  ans_days_window : int_answer
}.

(** The parameters of [CALL sp_trace_recall(%s, %s, %s)]. *)
Record trace_call := {
  trace_ingredient_id : option Z;
  trace_lot_number : option string;
  trace_days_window : Z
}.

Record recall_row := {
  rr_product_batch_id : Z;
  rr_product_lot_number : string;
  rr_produced_units : Z;
  rr_consumed_qty_oz : Z
}.

Inductive trace_outcome :=
| InvalidIngredientId
| LotNumberRequired
| InvalidTraceChoice
| NothingFound (call : trace_call)
| RecallAlert (call : trace_call) (results : list recall_row)
| TraceError (call : trace_call).

(** The stored procedure [sp_trace_recall], likewise a parameter; [None]
    when the call raises. *)
Variable sp_trace_recall : trace_call -> database -> option (list recall_row).

Definition days_window_of (answer : int_answer) : Z :=
  match answer with
  | Blank => 20
  | NotInt => 20
  | Int n => n
  end.

Definition run_trace (ingredient_id : option Z) (lot_number : option string)
    (answers : trace_answers) (db : database) : trace_outcome :=
  let days_window := days_window_of (ans_days_window answers) in
  let call := {| trace_ingredient_id := ingredient_id;
                 trace_lot_number := lot_number;
                 trace_days_window := days_window |} in
  match sp_trace_recall call db with
  | Some [] => NothingFound call
  | Some results => RecallAlert call results
  | None => TraceError call
  end.

Definition trace_product_recall (answers : trace_answers) (db : database)
    : trace_outcome :=
  if String.eqb (ans_trace_choice answers) "1" then
    match ans_ingredient_id answers with
    | IdBlank | IdNotDigits => InvalidIngredientId
    | IdDigits n => run_trace (Some n) None answers db
    end
  else if String.eqb (ans_trace_choice answers) "2" then
    if String.eqb (ans_lot_number answers) "" then LotNumberRequired
    else run_trace None (Some (ans_lot_number answers)) answers db
  else InvalidTraceChoice.

End Procedures.

(** Modelled from the spec: the stored procedure [sp_record_product_batch]
    is missing from the sources.  Section 4.4 of the specification gives the
    rows a commit works on: the allocations staged under the session token,
    or, for the sentinel (the empty token), all currently staged
    allocations, unscoped. *)
Definition commit_scope (session_token : string)
    (staging : list staging_consumption) : list staging_consumption :=
  if String.eqb session_token "" then staging
  else filter (fun r => sc_session_token r = session_token) staging.

(** Modelled from the spec: a stand-in for the missing procedure that keeps
    of section 4.4 only step 7, the deletion of the rows the commit worked
    on; batch records, lot numbers and costs are not represented. *)
Definition consume_staging (call : batch_call) (db : database)
    : option (list created_batch) * database :=
  (Some [],
   with_staging db
     (if String.eqb (call_session_token call) "" then []
      else filter (fun r => sc_session_token r <> call_session_token call)
             (staging_consumption_tbl db))).

(** ** Notions used in the statements *)

Definition in_stock (lot : batch_row) : Prop := 0 < br_on_hand_oz lot.

(** Each staged row takes a positive quantity, at most what its lot holds. *)
Definition taken_from (session_token : string) (lot : batch_row)
    (r : staging_consumption) : Prop :=
  sc_session_token r = session_token
  /\ sc_ingredient_batch_id r = br_ingredient_batch_id lot
  /\ 0 < sc_qty_oz r <= br_on_hand_oz lot.

Definition eligible (today : Z) (ingredient_id : string) (ib : ingredient_batch)
    : Prop :=
  ib_ingredient_id ib = ingredient_id
  /\ 0 < ib_on_hand_oz ib
  /\ today <= ib_expiration_date ib.

(** A row drawn from an eligible lot of the ingredient: positive, and within
    what the lot holds. *)
Definition drawn_from (today : Z) (db : database)
    (session_token ingredient_id : string) (r : staging_consumption) : Prop :=
  sc_session_token r = session_token
  /\ exists ib,
       ingredient_batch_tbl db !! sc_ingredient_batch_id r = Some ib
       /\ eligible today ingredient_id ib
       /\ 0 < sc_qty_oz r <= ib_on_hand_oz ib.


Definition fresh_token (session_token : string) (db : database) : Prop :=
  Forall (fun r => sc_session_token r <> session_token)
    (staging_consumption_tbl db).


(** The run passes the manufacturer and recipe checks and reaches the
    prompt for the batch units. *)
Definition recipe_chosen (u : user) (answers : batch_answers) (db : database)
    (mfg_id : string) (recipe_plan_id : Z) : Prop :=
  _get_manufacturer_id u = Some mfg_id
  /\ mfg_id <> ""
  /\ active_recipes_query db mfg_id <> []
  /\ ans_recipe_plan_id answers = Some recipe_plan_id
  /\ recipe_check_query db recipe_plan_id mfg_id <> [].

(** The ways a run can end before the lot selection. *)
Definition ends_early (outcome : batch_outcome) : Prop :=
  match outcome with
  | NoManufacturer | NoRecipePlans | NoRecipeChosen | RecipeNotFound
  | NoUnitsGiven | InvalidQuantity => True
  | _ => False
  end.

Definition outcome_call (outcome : batch_outcome)
    : option (batch_call * list staging_listing) :=
  match outcome with
  | BatchCreated call listed _ | CreationError call listed => Some (call, listed)
  | _ => None
  end.

Definition outcome_trace (outcome : trace_outcome) : option trace_call :=
  match outcome with
  | NothingFound call | RecallAlert call _ | TraceError call => Some call
  | _ => None
  end.

(** ** A small plant, used to run the functions *)

Definition flour_a : ingredient_batch :=
  {| ib_ingredient_id := "ING001"; ib_supplier_id := 21; ib_lot_number := "A";
     ib_on_hand_oz := 4; ib_expiration_date := 105 |}.
Definition flour_b : ingredient_batch :=
  {| ib_ingredient_id := "ING001"; ib_supplier_id := 21; ib_lot_number := "B";
     ib_on_hand_oz := 20; ib_expiration_date := 120 |}.
Definition salt_s : ingredient_batch :=
  {| ib_ingredient_id := "ING002"; ib_supplier_id := 21; ib_lot_number := "S";
     ib_on_hand_oz := 3; ib_expiration_date := 110 |}.

Definition plant : database :=
  {| ingredient_tbl :=
       <["ING001" := {| ingredient_name := "Flour"; is_compound := false |}]>
       (<["ING002" := {| ingredient_name := "Salt"; is_compound := false |}]> ∅);
     supplier_tbl := <[21 := {| supplier_name := "Supplier B" |}]> ∅;
     ingredient_batch_tbl :=
       <[9003 := salt_s]> (<[9002 := flour_b]> (<[9001 := flour_a]> ∅));
     recipe_plan_tbl :=
       <[12 := {| rp_product_type_id := 100 |}]>
       (<[11 := {| rp_product_type_id := 100 |}]>
        (<[10 := {| rp_product_type_id := 100 |}]> ∅));
     product_type_tbl :=
       <[100 := {| pt_manufacturer_id := "MFG001"; pt_name := "Bread";
                   pt_standard_batch_units := 5 |}]> ∅;
     recipe_plan_item_tbl :=
       [ {| rpi_recipe_plan_id := 10; rpi_ingredient_id := "ING001";
            rpi_qty_oz_per_unit := 2 |};
         {| rpi_recipe_plan_id := 11; rpi_ingredient_id := "ING002";
            rpi_qty_oz_per_unit := 1 |};
         {| rpi_recipe_plan_id := 11; rpi_ingredient_id := "ING001";
            rpi_qty_oz_per_unit := 2 |} ];
     staging_consumption_tbl := [] |}.

Definition baker : user := {| manufacturer_id := Some "MFG001" |}.

Definition fefo_answers (recipe_plan_id : Z) (units : int_answer)
    (confirm : string) : batch_answers :=
  {| ans_recipe_plan_id := Some recipe_plan_id; ans_batch_units := units;
     ans_selection_choice := "1"; ans_proceed := ""; ans_confirm := confirm |}.

Definition legacy_answers (confirm : string) : batch_answers :=
  {| ans_recipe_plan_id := Some 10; ans_batch_units := Int 5;
     ans_selection_choice := "2"; ans_proceed := "y"; ans_confirm := confirm |}.

(** The plant with rows of two other sessions already staged. *)
Definition busy_plant : database :=
  with_staging plant
    [ {| sc_session_token := "s1"; sc_ingredient_batch_id := 9001; sc_qty_oz := 1 |};
      {| sc_session_token := "s2"; sc_ingredient_batch_id := 9003; sc_qty_oz := 2 |} ].

Definition flour_line (units : Z) : recipe_item_row :=
  {| ri_ingredient_id := "ING001"; ri_ingredient_name := "Flour";
     ri_qty_oz_per_unit := 2; ri_total_qty_needed := 2 * units |}.

Definition salt_line (units : Z) : recipe_item_row :=
  {| ri_ingredient_id := "ING002"; ri_ingredient_name := "Salt";
     ri_qty_oz_per_unit := 1; ri_total_qty_needed := 1 * units |}.

(** A recall procedure that finds nothing. *)
Definition nothing_recalled (call : trace_call) (db : database)
    : option (list recall_row) := Some [].

Definition lot_trace (days_window : int_answer) : trace_answers :=
  {| ans_trace_choice := "2"; ans_ingredient_id := IdBlank;
     ans_lot_number := "L100"; ans_days_window := days_window |}.

(** A procedure whose call raises, leaving the database as it is. *)
Definition failing_procedure (call : batch_call) (db : database)
    : option (list created_batch) * database := (None, db).

(** ** Recipe plan management: the statements that write *)

Definition with_recipe_items (db : database) (rows : list recipe_plan_item)
    : database :=
  {| ingredient_tbl := ingredient_tbl db;
     supplier_tbl := supplier_tbl db;
     ingredient_batch_tbl := ingredient_batch_tbl db;
     recipe_plan_tbl := recipe_plan_tbl db;
     product_type_tbl := product_type_tbl db;
     recipe_plan_item_tbl := rows;
     staging_consumption_tbl := staging_consumption_tbl db |}.

Definition with_recipe_plans (db : database) (plans : gmap Z recipe_plan)
    (rows : list recipe_plan_item) : database :=
  {| ingredient_tbl := ingredient_tbl db;
     supplier_tbl := supplier_tbl db;
     ingredient_batch_tbl := ingredient_batch_tbl db;
     recipe_plan_tbl := plans;
     product_type_tbl := product_type_tbl db;
     recipe_plan_item_tbl := rows;
     staging_consumption_tbl := staging_consumption_tbl db |}.

(** The statements the recipe plan functions send with [fetch=False] (or,
    for the first, through a connection of their own). *)
Inductive statement :=
| InsertRecipePlan (product_type_id : Z) (notes : option string)
| UpdateRecipePlanNotes (notes : string) (recipe_plan_id : Z)
| InsertRecipePlanItem (recipe_plan_id : Z) (ingredient_id : string) (qty : Z)
| UpdateRecipePlanItem (qty : Z) (recipe_plan_id : Z) (ingredient_id : string)
| DeleteRecipePlanItem (recipe_plan_id : Z) (ingredient_id : string)
| DeleteRecipePlan (recipe_plan_id : Z) (mfg_id : string).

(** [WHERE recipe_plan_id = %s AND ingredient_id = %s] *)
Definition is_line (recipe_plan_id : Z) (ingredient_id : string)
    (rpi : recipe_plan_item) : Prop :=
  rpi_recipe_plan_id rpi = recipe_plan_id /\ rpi_ingredient_id rpi = ingredient_id.

Definition set_qty (qty : Z) (rpi : recipe_plan_item) : recipe_plan_item :=
  {| rpi_recipe_plan_id := rpi_recipe_plan_id rpi;
     rpi_ingredient_id := rpi_ingredient_id rpi;
     rpi_qty_oz_per_unit := qty |}.

(** [rp JOIN product_type pt ON rp.product_type_id = pt.product_type_id
     WHERE rp.recipe_plan_id = %s AND pt.manufacturer_id = %s] *)
Definition plan_of (db : database) (recipe_plan_id : Z) (mfg_id : string) : bool :=
  match recipe_check_query db recipe_plan_id mfg_id with
  | [] => false
  | _ :: _ => true
  end.

Section Statements.

(** The id an [AUTO_INCREMENT] insert into [recipe_plan] is given
    ([cur.lastrowid]). *)
Variable lastrowid : database -> Z.

(** What a statement does when the server accepts it.  The notes of a
    recipe plan are not among the columns of the model, so that the two
    statements on notes leave no trace but the plan row.  Deleting a plan
    deletes its items with it: the function announces the cascade to the
    user and relies on it. *)
Definition execute (st : statement) (db : database) : database :=
  match st with
  | InsertRecipePlan product_type_id notes =>
      with_recipe_plans db
        (<[lastrowid db := {| rp_product_type_id := product_type_id |}]>
           (recipe_plan_tbl db))
        (recipe_plan_item_tbl db)
  | UpdateRecipePlanNotes notes recipe_plan_id => db
  | InsertRecipePlanItem recipe_plan_id ingredient_id qty =>
      with_recipe_items db
        (recipe_plan_item_tbl db
           ++ [ {| rpi_recipe_plan_id := recipe_plan_id;
                   rpi_ingredient_id := ingredient_id;
                   rpi_qty_oz_per_unit := qty |} ])
  | UpdateRecipePlanItem qty recipe_plan_id ingredient_id =>
      with_recipe_items db
        ((fun rpi => if decide (is_line recipe_plan_id ingredient_id rpi)
                     then set_qty qty rpi else rpi)
           <$> recipe_plan_item_tbl db)
  | DeleteRecipePlanItem recipe_plan_id ingredient_id =>
      with_recipe_items db
        (filter (fun rpi => ~ is_line recipe_plan_id ingredient_id rpi)
           (recipe_plan_item_tbl db))
  | DeleteRecipePlan recipe_plan_id mfg_id =>
      if plan_of db recipe_plan_id mfg_id
      then with_recipe_plans db (delete recipe_plan_id (recipe_plan_tbl db))
             (filter (fun rpi => rpi_recipe_plan_id rpi <> recipe_plan_id)
                (recipe_plan_item_tbl db))
      else db
  end.

(** Whether the server refuses a statement (a constraint of the schema, a
    value it cannot store, a storage fault): [run_query] then raises and
    nothing is committed.  The schema is not among the sources, so this is
    a parameter. *)
Variable raises : statement -> database -> bool.

Definition run_statement (st : statement) (db : database) : option database :=
  if raises st db then None else Some (execute st db).

(** What [float(...)] makes of a quantity answer, as the DECIMAL value the
    column holds for it; [None] when [float] raises [ValueError]. *)
Variable oz_of : string -> option Z.

(** ** [_add_recipe_ingredients] *)

(** How a loop over the answers ends: by the answer that leaves it, or
    because the input is at its end ([input] raises [EOFError]). *)
Inductive loop_end :=
| LoopLeft
| EndOfInput.

(** [tape] holds the answers to come, each after [.strip()]. *)
Fixpoint _add_recipe_ingredients (recipe_plan_id : Z) (tape : list string)
    (db : database) : database * loop_end :=
  match tape with
  | [] => (db, EndOfInput)
  | ing_id :: tape1 =>
      if String.eqb ing_id "" then (db, LoopLeft)
      else
        match tape1 with
        | [] => (db, EndOfInput)
        | qty :: tape2 =>
            if String.eqb qty "" then
              _add_recipe_ingredients recipe_plan_id tape2 db
            else
              match oz_of qty with
              | None => _add_recipe_ingredients recipe_plan_id tape2 db
              | Some q =>
                  match run_statement
                          (InsertRecipePlanItem recipe_plan_id ing_id q) db with
                  | Some db' => _add_recipe_ingredients recipe_plan_id tape2 db'
                  | None => _add_recipe_ingredients recipe_plan_id tape2 db
                  end
              end
        end
  end.

(** ** [create_recipe_plan] *)

Record create_plan_answers := {
  cp_product_type_id : option Z;
  cp_notes : string;
  cp_ingredients : list string
}.

Inductive create_plan_outcome :=
| CreateNoManufacturer
| CreateNoProductType
| CreateProductTypeNotFound
| CreateFailed
| PlanCreated (new_id : Z) (ingredients : loop_end).

(** [SELECT product_type_id FROM product_type
     WHERE product_type_id = %s AND manufacturer_id = %s] *)
Definition own_product_type (db : database) (product_type_id : Z)
    (mfg_id : string) : bool :=
  match product_type_tbl db !! product_type_id with
  | Some pt => String.eqb (pt_manufacturer_id pt) mfg_id
  | None => false
  end.

Definition create_recipe_plan (u : user) (answers : create_plan_answers)
    (db : database) : database * create_plan_outcome :=
  match _get_manufacturer_id u with
  | None => (db, CreateNoManufacturer)
  | Some mfg_id =>
      if String.eqb mfg_id "" then (db, CreateNoManufacturer)
      else
        match cp_product_type_id answers with
        | None => (db, CreateNoProductType)
        | Some product_type_id =>
            if negb (own_product_type db product_type_id mfg_id)
            then (db, CreateProductTypeNotFound)
            else
              let notes := if String.eqb (cp_notes answers) "" then None
                           else Some (cp_notes answers) in
              match run_statement (InsertRecipePlan product_type_id notes) db with
              | None => (db, CreateFailed)
              | Some db1 =>
                  let new_id := lastrowid db in
                  let '(db2, ended) :=
                    _add_recipe_ingredients new_id (cp_ingredients answers) db1 in
                  (db2, PlanCreated new_id ended)
              end
        end
  end.

(** ** [update_recipe_plan] *)

(** A row of the listing of the ingredients of a plan. *)
Record ingredient_line := {
  il_ingredient_id : string;
  il_ingredient_name : string;
  il_qty_oz_per_unit : Z
}.

Definition ingredient_line_select (db : database) (recipe_plan_id : Z)
    (rpi : recipe_plan_item) : option ingredient_line :=
  match ingredient_tbl db !! rpi_ingredient_id rpi with
  | Some i =>
      if rpi_recipe_plan_id rpi =? recipe_plan_id
      then Some {| il_ingredient_id := rpi_ingredient_id rpi;
                   il_ingredient_name := ingredient_name i;
                   il_qty_oz_per_unit := rpi_qty_oz_per_unit rpi |}
      else None
  | None => None
  end.

Definition by_line_name (a b : ingredient_line) : Prop :=
  Is_true (String.leb (il_ingredient_name a) (il_ingredient_name b)).

(** [FROM recipe_plan_item rpi JOIN ingredient i ... WHERE rpi.recipe_plan_id
     = %s ORDER BY i.name] *)
Definition current_ingredients_query (db : database) (recipe_plan_id : Z)
    : list ingredient_line :=
  merge_sort by_line_name
    (omap (ingredient_line_select db recipe_plan_id) (recipe_plan_item_tbl db)).

Definition by_ingredient_name (a b : string * ingredient) : Prop :=
  Is_true (String.leb (ingredient_name a.2) (ingredient_name b.2)).

(** [SELECT ingredient_id, name, is_compound FROM ingredient ORDER BY name] *)
Definition all_ingredients_query (db : database) : list (string * ingredient) :=
  merge_sort by_ingredient_name (map_to_list (ingredient_tbl db)).

(** [SELECT ... FROM recipe_plan_item
     WHERE recipe_plan_id = %s AND ingredient_id = %s] *)
Definition line_query (db : database) (recipe_plan_id : Z) (ingredient_id : string)
    : list recipe_plan_item :=
  filter (is_line recipe_plan_id ingredient_id) (recipe_plan_item_tbl db).

(** The [while True] loop of the ingredient management; the answers to the
    yes/no prompt are held after [.lower()]. *)
Fixpoint manage_ingredients (recipe_plan_id : Z) (tape : list string)
    (current_ingredients : list ingredient_line) (db : database)
    : database * loop_end :=
  match tape with
  | [] => (db, EndOfInput)
  | sub_choice :: tape1 =>
      if String.eqb sub_choice "0" then (db, LoopLeft)
      else if String.eqb sub_choice "1" then
        match all_ingredients_query db with
        | [] => manage_ingredients recipe_plan_id tape1 current_ingredients db
        | _ :: _ =>
            match tape1 with
            | [] => (db, EndOfInput)
            | ing_id :: tape2 =>
                if String.eqb ing_id "" then
                  manage_ingredients recipe_plan_id tape2 current_ingredients db
                else
                  match line_query db recipe_plan_id ing_id with
                  | _ :: _ =>
                      manage_ingredients recipe_plan_id tape2
                        current_ingredients db
                  | [] =>
                      match tape2 with
                      | [] => (db, EndOfInput)
                      | qty :: tape3 =>
                          match oz_of qty with
                          | None =>
                              manage_ingredients recipe_plan_id tape3
                                current_ingredients db
                          | Some q =>
                              match run_statement
                                      (InsertRecipePlanItem recipe_plan_id
                                         ing_id q) db with
                              | Some db' =>
                                  manage_ingredients recipe_plan_id tape3
                                    (current_ingredients_query db' recipe_plan_id)
                                    db'
                              | None =>
                                  manage_ingredients recipe_plan_id tape3
                                    current_ingredients db
                              end
                          end
                      end
                  end
            end
        end
      else if String.eqb sub_choice "2" then
        match current_ingredients with
        | [] => manage_ingredients recipe_plan_id tape1 current_ingredients db
        | _ :: _ =>
            match tape1 with
            | [] => (db, EndOfInput)
            | ing_id :: tape2 =>
                if String.eqb ing_id "" then
                  manage_ingredients recipe_plan_id tape2 current_ingredients db
                else
                  match line_query db recipe_plan_id ing_id with
                  | [] =>
                      manage_ingredients recipe_plan_id tape2
                        current_ingredients db
                  | _ :: _ =>
                      match tape2 with
                      | [] => (db, EndOfInput)
                      | qty :: tape3 =>
                          match oz_of qty with
                          | None =>
                              manage_ingredients recipe_plan_id tape3
                                current_ingredients db
                          | Some q =>
                              match run_statement
                                      (UpdateRecipePlanItem q recipe_plan_id
                                         ing_id) db with
                              | Some db' =>
                                  manage_ingredients recipe_plan_id tape3
                                    (current_ingredients_query db' recipe_plan_id)
                                    db'
                              | None =>
                                  manage_ingredients recipe_plan_id tape3
                                    current_ingredients db
                              end
                          end
                      end
                  end
            end
        end
      else if String.eqb sub_choice "3" then
        match current_ingredients with
        | [] => manage_ingredients recipe_plan_id tape1 current_ingredients db
        | _ :: _ =>
            match tape1 with
            | [] => (db, EndOfInput)
            | ing_id :: tape2 =>
                if String.eqb ing_id "" then
                  manage_ingredients recipe_plan_id tape2 current_ingredients db
                else
                  match line_query db recipe_plan_id ing_id with
                  | [] =>
                      manage_ingredients recipe_plan_id tape2
                        current_ingredients db
                  | _ :: _ =>
                      match tape2 with
                      | [] => (db, EndOfInput)
                      | confirm :: tape3 =>
                          if String.eqb confirm "yes" then
                            match run_statement
                                    (DeleteRecipePlanItem recipe_plan_id ing_id)
                                    db with
                            | Some db' =>
                                manage_ingredients recipe_plan_id tape3
                                  (current_ingredients_query db' recipe_plan_id)
                                  db'
                            | None =>
                                manage_ingredients recipe_plan_id tape3
                                  current_ingredients db
                            end
                          else
                            manage_ingredients recipe_plan_id tape3
                              current_ingredients db
                      end
                  end
            end
        end
      else manage_ingredients recipe_plan_id tape1 current_ingredients db
  end.

Record update_plan_answers := {
  up_recipe_plan_id : option Z;
  up_choice : string;
  up_new_notes : string;
  up_ingredients : list string
}.

Inductive update_plan_outcome :=
| UpdateNoManufacturer
| UpdateNoPlan
| UpdatePlanNotFound
| NotesKept
| NotesUpdated (notes : string)
| NotesNotUpdated
| IngredientsManaged (ended : loop_end)
| UpdateCancelled
| UpdateInvalidChoice.

Definition update_recipe_plan (u : user) (answers : update_plan_answers)
    (db : database) : database * update_plan_outcome :=
  match _get_manufacturer_id u with
  | None => (db, UpdateNoManufacturer)
  | Some mfg_id =>
      if String.eqb mfg_id "" then (db, UpdateNoManufacturer)
      else
        match up_recipe_plan_id answers with
        | None => (db, UpdateNoPlan)
        | Some recipe_plan_id =>
            if negb (plan_of db recipe_plan_id mfg_id)
            then (db, UpdatePlanNotFound)
            else if String.eqb (up_choice answers) "1" then
              if String.eqb (up_new_notes answers) "" then (db, NotesKept)
              else
                match run_statement
                        (UpdateRecipePlanNotes (up_new_notes answers)
                           recipe_plan_id) db with
                | Some db' => (db', NotesUpdated (up_new_notes answers))
                | None => (db, NotesNotUpdated)
                end
            else if String.eqb (up_choice answers) "2" then
              let '(db', ended) :=
                manage_ingredients recipe_plan_id (up_ingredients answers)
                  (current_ingredients_query db recipe_plan_id) db in
              (db', IngredientsManaged ended)
            else if String.eqb (up_choice answers) "0" then (db, UpdateCancelled)
            else (db, UpdateInvalidChoice)
        end
  end.

(** ** [delete_recipe_plan] *)

Record delete_plan_answers := {
  dp_recipe_plan_id : option Z;
  dp_confirm : string
}.

Inductive delete_plan_outcome :=
| DeleteNoManufacturer
| DeleteNoPlan
| DeletePlanNotFound
| DeleteCancelled
| PlanDeleted
| PlanNotDeleted.

Definition delete_recipe_plan (u : user) (answers : delete_plan_answers)
    (db : database) : database * delete_plan_outcome :=
  match _get_manufacturer_id u with
  | None => (db, DeleteNoManufacturer)
  | Some mfg_id =>
      if String.eqb mfg_id "" then (db, DeleteNoManufacturer)
      else
        match dp_recipe_plan_id answers with
        | None => (db, DeleteNoPlan)
        | Some recipe_plan_id =>
            if negb (plan_of db recipe_plan_id mfg_id)
            then (db, DeletePlanNotFound)
            else if negb (String.eqb (dp_confirm answers) "yes")
            then (db, DeleteCancelled)
            else
              match run_statement (DeleteRecipePlan recipe_plan_id mfg_id) db with
              | Some db' => (db', PlanDeleted)
              | None => (db, PlanNotDeleted)
              end
        end
  end.

End Statements.

(** ** Product type management *)

Definition with_product_types (db : database) (types : gmap Z product_type)
    (plans : gmap Z recipe_plan) (rows : list recipe_plan_item) : database :=
  {| ingredient_tbl := ingredient_tbl db;
     supplier_tbl := supplier_tbl db;
     ingredient_batch_tbl := ingredient_batch_tbl db;
     recipe_plan_tbl := plans;
     product_type_tbl := types;
     recipe_plan_item_tbl := rows;
     staging_consumption_tbl := staging_consumption_tbl db |}.

(** The statements of the product type functions.  The product code and
    the category of a product type are not among the columns of the model;
    the statements are kept with the columns the model has. *)
Inductive type_statement :=
| InsertProductType (mfg_id : string) (name : string) (standard_batch_units : Z)
| UpdateProductType (name : string) (standard_batch_units : Z)
    (product_type_id : Z) (mfg_id : string)
| DeleteProductType (product_type_id : Z) (mfg_id : string).

Section TypeStatements.

(** The id an insert into [product_type] is given. *)
Variable product_type_rowid : database -> Z.

(** Deleting a product type deletes its recipe plans and their items with
    it, as the function warns the user. *)
Definition execute_type (st : type_statement) (db : database) : database :=
  match st with
  | InsertProductType mfg_id name standard_batch_units =>
      with_product_types db
        (<[product_type_rowid db :=
             {| pt_manufacturer_id := mfg_id; pt_name := name;
                pt_standard_batch_units := standard_batch_units |}]>
           (product_type_tbl db))
        (recipe_plan_tbl db) (recipe_plan_item_tbl db)
  | UpdateProductType name standard_batch_units product_type_id mfg_id =>
      if own_product_type db product_type_id mfg_id
      then with_product_types db
             (<[product_type_id :=
                  {| pt_manufacturer_id := mfg_id; pt_name := name;
                     pt_standard_batch_units := standard_batch_units |}]>
                (product_type_tbl db))
             (recipe_plan_tbl db) (recipe_plan_item_tbl db)
      else db
  | DeleteProductType product_type_id mfg_id =>
      if own_product_type db product_type_id mfg_id
      then with_product_types db
             (delete product_type_id (product_type_tbl db))
             (filter (fun kv => rp_product_type_id kv.2 <> product_type_id)
                (recipe_plan_tbl db))
             (filter (fun rpi =>
                        rp_product_type_id
                          <$> (recipe_plan_tbl db !! rpi_recipe_plan_id rpi)
                        <> Some product_type_id)
                (recipe_plan_item_tbl db))
      else db
  end.

(** Whether the server refuses a statement, as for the recipe plans. *)
Variable type_raises : type_statement -> database -> bool.

Definition run_type_statement (st : type_statement) (db : database)
    : option database :=
  if type_raises st db then None else Some (execute_type st db).

(** [SELECT COUNT( * ) FROM product_batch WHERE product_type_id = %s]; the
    table of product batches is written by the stored procedure only and is
    not part of the model. *)
Variable product_batch_count : database -> Z -> Z.

(** *** [create_product_type] *)

Record create_type_answers := {
  ct_product_name : string;
  ct_product_code : string;
  ct_category_id : string;
  ct_standard_batch_units : id_answer
}.

Inductive create_type_outcome :=
| TypeNoManufacturer
| ProductNameRequired
| ProductCodeRequired
| CategoryRequired
| BatchUnitsInvalid
| TypeCreated
| TypeNotCreated.

Definition create_product_type (u : user) (answers : create_type_answers)
    (db : database) : database * create_type_outcome :=
  match _get_manufacturer_id u with
  | None => (db, TypeNoManufacturer)
  | Some mfg_id =>
      if String.eqb mfg_id "" then (db, TypeNoManufacturer)
      else if String.eqb (ct_product_name answers) ""
      then (db, ProductNameRequired)
      else if String.eqb (ct_product_code answers) ""
      then (db, ProductCodeRequired)
      else if String.eqb (ct_category_id answers) ""
      then (db, CategoryRequired)
      else
        match ct_standard_batch_units answers with
        | IdBlank | IdNotDigits => (db, BatchUnitsInvalid)
        | IdDigits standard_batch_units =>
            match run_type_statement
                    (InsertProductType mfg_id (ct_product_name answers)
                       standard_batch_units) db with
            | Some db' => (db', TypeCreated)
            | None => (db, TypeNotCreated)
            end
        end
  end.

(** *** [update_product_type] *)

(** An empty answer keeps the current value; the units are [None] for an
    empty answer and otherwise the number the statement stores. *)
Record update_type_answers := {
  ut_product_type_id : option Z;
  ut_product_name : string;
  ut_product_code : string;
  ut_category_id : string;
  ut_standard_batch_units : option Z
}.

Inductive update_type_outcome :=
| UpdateTypeNoManufacturer
| UpdateNoType
| UpdateTypeNotFound
| TypeUpdated
| TypeNotUpdated.

Definition update_product_type (u : user) (answers : update_type_answers)
    (db : database) : database * update_type_outcome :=
  match _get_manufacturer_id u with
  | None => (db, UpdateTypeNoManufacturer)
  | Some mfg_id =>
      if String.eqb mfg_id "" then (db, UpdateTypeNoManufacturer)
      else
        match ut_product_type_id answers with
        | None => (db, UpdateNoType)
        | Some product_type_id =>
            match product_type_tbl db !! product_type_id with
            | None => (db, UpdateTypeNotFound)
            | Some current =>
                if negb (String.eqb (pt_manufacturer_id current) mfg_id)
                then (db, UpdateTypeNotFound)
                else
                  let product_name :=
                    if String.eqb (ut_product_name answers) ""
                    then pt_name current else ut_product_name answers in
                  let standard_batch_units :=
                    match ut_standard_batch_units answers with
                    | None => pt_standard_batch_units current
                    | Some n => n
                    end in
                  match run_type_statement
                          (UpdateProductType product_name standard_batch_units
                             product_type_id mfg_id) db with
                  | Some db' => (db', TypeUpdated)
                  | None => (db, TypeNotUpdated)
                  end
            end
        end
  end.

(** *** [delete_product_type] *)

Record delete_type_answers := {
  dt_product_type_id : option Z;
  dt_confirm : string
}.

Inductive delete_type_outcome :=
| DeleteTypeNoManufacturer
| DeleteNoType
| DeleteTypeNotFound
| TypeHasBatches
| DeleteTypeCancelled
| TypeDeleted
| TypeNotDeleted.

Definition delete_product_type (u : user) (answers : delete_type_answers)
    (db : database) : database * delete_type_outcome :=
  match _get_manufacturer_id u with
  | None => (db, DeleteTypeNoManufacturer)
  | Some mfg_id =>
      if String.eqb mfg_id "" then (db, DeleteTypeNoManufacturer)
      else
        match dt_product_type_id answers with
        | None => (db, DeleteNoType)
        | Some product_type_id =>
            if negb (own_product_type db product_type_id mfg_id)
            then (db, DeleteTypeNotFound)
            else if 0 <? product_batch_count db product_type_id
            then (db, TypeHasBatches)
            else if negb (String.eqb (dt_confirm answers) "yes")
            then (db, DeleteTypeCancelled)
            else
              match run_type_statement
                      (DeleteProductType product_type_id mfg_id) db with
              | Some db' => (db', TypeDeleted)
              | None => (db, TypeNotDeleted)
              end
        end
  end.

End TypeStatements.

(** A server that accepts every product type statement. *)
Definition type_never_raises (st : type_statement) (db : database) : bool := false.

(** No product batch recorded. *)
Definition no_batches (db : database) (product_type_id : Z) : Z := 0.

(** Every plan has at most one line per ingredient. *)
Definition one_line_per_ingredient (db : database) : Prop :=
  NoDup ((fun rpi => (rpi_recipe_plan_id rpi, rpi_ingredient_id rpi))
           <$> recipe_plan_item_tbl db).

(** A server that accepts every statement. *)
Definition never_raises (st : statement) (db : database) : bool := false.

(** The next free id of [recipe_plan]. *)
Definition next_plan_id (db : database) : Z :=
  1 + foldr Z.max 0 (map_to_list (recipe_plan_tbl db)).*1.

(** A reading of the quantity answers used below. *)
Definition sample_oz (s : string) : option Z :=
  if String.eqb s "3" then Some 3
  else if String.eqb s "7" then Some 7
  else None.

(** The next free id of [product_type]. *)
Definition next_type_id (db : database) : Z :=
  1 + foldr Z.max 0 (map_to_list (product_type_tbl db)).*1.

(** ** Answers used to run the management functions on the plant *)

(** Salt is added to plan 10. *)
Definition add_salt : update_plan_answers :=
  {| up_recipe_plan_id := Some 10; up_choice := "2"; up_new_notes := "";
     up_ingredients := ["1"; "ING002"; "3"; "0"] |}.

Definition new_plan : create_plan_answers :=
  {| cp_product_type_id := Some 100; cp_notes := "";
     cp_ingredients := ["ING001"; "3"; "ING002"; "7"; ""] |}.

Definition drop_plan (recipe_plan_id : Z) : delete_plan_answers :=
  {| dp_recipe_plan_id := Some recipe_plan_id; dp_confirm := "yes" |}.

Definition new_type : create_type_answers :=
  {| ct_product_name := "Rolls"; ct_product_code := "P-200";
     ct_category_id := "2"; ct_standard_batch_units := IdDigits 12 |}.

Definition rename_bread : update_type_answers :=
  {| ut_product_type_id := Some 100; ut_product_name := "Loaf";
     ut_product_code := ""; ut_category_id := "";
     ut_standard_batch_units := None |}.

Definition drop_type (product_type_id : Z) : delete_type_answers :=
  {| dt_product_type_id := Some product_type_id; dt_confirm := "yes" |}.

(** ** Frame facts: staging never touches the stock tables *)

Lemma with_staging_twice db rows rows' :
  with_staging (with_staging db rows) rows' = with_staging db rows'.
Proof. reflexivity. Qed.

Lemma with_staging_same db : with_staging db (staging_consumption_tbl db) = db.
Proof. by destruct db. Qed.

(** ** Sums of staged rows *)

Lemma staged_total_nil : staged_total [] = 0.
Proof. reflexivity. Qed.

Lemma staged_total_cons r rows :
  staged_total (r :: rows) = sc_qty_oz r + staged_total rows.
Proof. reflexivity. Qed.

Lemma total_on_hand_cons lot lots :
  total_on_hand (lot :: lots) = br_on_hand_oz lot + total_on_hand lots.
Proof. reflexivity. Qed.

(** ** The loop refines the walk *)

Lemma select_lots_walk session_token lots s :
  select_lots session_token lots s =
  {| sel_db :=
       with_staging (sel_db s)
         (staging_consumption_tbl (sel_db s)
            ++ fefo_walk session_token lots (qty_remaining s));
     qty_remaining :=
       qty_remaining s
       - staged_total (fefo_walk session_token lots (qty_remaining s));
     lots_for_ingredient :=
       lots_for_ingredient s
       + Z.of_nat (length (fefo_walk session_token lots (qty_remaining s)));
     total_lots_selected :=
       total_lots_selected s
       + Z.of_nat (length (fefo_walk session_token lots (qty_remaining s))) |}.
Proof.
  revert s. induction lots as [|lot rest IH]; intros [db q n t]; simpl.
  - rewrite app_nil_r, with_staging_same, staged_total_nil. f_equal; lia.
  - destruct (q <=? 0) eqn:Hq; simpl.
    + rewrite app_nil_r, with_staging_same, staged_total_nil. f_equal; lia.
    + rewrite IH. simpl. unfold insert_staging. rewrite with_staging_twice.
      simpl. rewrite <- app_assoc, staged_total_cons. simpl.
      f_equal; lia.
Qed.

(** ** Properties of the walk *)

Lemma total_on_hand_nonneg lots : Forall in_stock lots -> 0 <= total_on_hand lots.
Proof.
  induction 1 as [|lot lots Hlot _ IH]; [done|].
  rewrite total_on_hand_cons. unfold in_stock in Hlot. lia.
Qed.

Lemma fefo_walk_nothing_needed session_token lots needed :
  needed <= 0 -> fefo_walk session_token lots needed = [].
Proof.
  intros Hn. destruct lots as [|lot rest]; [done|]. simpl.
  destruct (Z.leb_spec needed 0); [done|lia].
Qed.

Lemma fefo_walk_total session_token lots needed :
  Forall in_stock lots ->
  needed <= total_on_hand lots ->
  staged_total (fefo_walk session_token lots needed) = Z.max 0 needed.
Proof.
  intros Hpos. revert needed.
  induction Hpos as [|lot rest Hlot Hrest IH]; intros needed Hle; simpl.
  - change (total_on_hand []) with 0 in Hle. rewrite staged_total_nil. lia.
  - rewrite total_on_hand_cons in Hle.
    pose proof (total_on_hand_nonneg _ Hrest) as Hnn. unfold in_stock in Hlot.
    destruct (Z.leb_spec needed 0); [rewrite staged_total_nil; lia|].
    rewrite staged_total_cons, IH by lia. simpl. lia.
Qed.



(** ** Properties of the lot query *)

Lemma batch_select_Some today db ingredient_id kv row :
  batch_select today db ingredient_id kv = Some row <->
  eligible today ingredient_id kv.2
  /\ exists s, supplier_tbl db !! ib_supplier_id kv.2 = Some s
     /\ row = {| br_ingredient_batch_id := kv.1;
                 br_lot_number := ib_lot_number kv.2;
                 br_on_hand_oz := ib_on_hand_oz kv.2;
                 br_expiration_date := ib_expiration_date kv.2;
                 br_supplier_name := supplier_name s;
                 br_days_until_expiry := ib_expiration_date kv.2 - today |}.
Proof.
  unfold batch_select, eligible.
  destruct (supplier_tbl db !! ib_supplier_id kv.2) as [s|];
    [|split; [discriminate|intros [_ (s & ? & _)]; discriminate]].
  destruct (String.eqb _ _ && (0 <? _) && (today <=? _)) eqn:Hc.
  - apply andb_prop in Hc as [Hc Hexp]. apply andb_prop in Hc as [Hing Hpos].
    apply String.eqb_eq in Hing. apply Z.ltb_lt in Hpos. apply Z.leb_le in Hexp.
    split.
    + intros [= <-]. split; [done|]. by exists s.
    + intros [_ (s' & [= <-] & ->)]. done.
  - split; [discriminate|]. intros [(Hing & Hpos & Hexp) _].
    apply String.eqb_eq in Hing. apply Z.ltb_lt in Hpos. apply Z.leb_le in Hexp.
    rewrite Hing, Hpos, Hexp in Hc. discriminate.
Qed.

Lemma elem_of_available today db ingredient_id row :
  row ∈ available_batches_query today db ingredient_id <->
  exists ib s,
    ingredient_batch_tbl db !! br_ingredient_batch_id row = Some ib
    /\ supplier_tbl db !! ib_supplier_id ib = Some s
    /\ eligible today ingredient_id ib
    /\ row = {| br_ingredient_batch_id := br_ingredient_batch_id row;
                br_lot_number := ib_lot_number ib;
                br_on_hand_oz := ib_on_hand_oz ib;
                br_expiration_date := ib_expiration_date ib;
                br_supplier_name := supplier_name s;
                br_days_until_expiry := ib_expiration_date ib - today |}.
Proof.
  unfold available_batches_query.
  rewrite merge_sort_Permutation, list_elem_of_omap. split.
  - intros ([id ib] & Hin & Hsel).
    apply elem_of_map_to_list in Hin.
    apply batch_select_Some in Hsel as [Hel (s & Hs & ->)]. simpl in *.
    eauto 10.
  - intros (ib & s & Hib & Hs & Hel & Hrow).
    exists (br_ingredient_batch_id row, ib). split.
    + by apply elem_of_map_to_list.
    + apply batch_select_Some. eauto.
Qed.

Lemma available_in_stock today db ingredient_id :
  Forall in_stock (available_batches_query today db ingredient_id).
Proof.
  apply Forall_forall. intros row Hrow.
  apply elem_of_available in Hrow as (ib & s & _ & _ & (_ & Hpos & _) & ->).
  exact Hpos.
Qed.

Global Instance fefo_order_total : Total fefo_order.
Proof.
  intros a b. unfold fefo_order, fefo_leb.
  destruct (Z.ltb_spec (br_expiration_date a) (br_expiration_date b));
  destruct (Z.ltb_spec (br_expiration_date b) (br_expiration_date a));
  destruct (Z.eqb_spec (br_expiration_date a) (br_expiration_date b));
  destruct (Z.eqb_spec (br_expiration_date b) (br_expiration_date a));
  destruct (Z.leb_spec (br_ingredient_batch_id a) (br_ingredient_batch_id b));
  destruct (Z.leb_spec (br_ingredient_batch_id b) (br_ingredient_batch_id a));
  simpl; try lia; tauto.
Qed.

Lemma fefo_order_alt a b :
  fefo_order a b <->
  br_expiration_date a < br_expiration_date b
  \/ (br_expiration_date a = br_expiration_date b
      /\ br_ingredient_batch_id a <= br_ingredient_batch_id b).
Proof.
  unfold fefo_order, fefo_leb.
  destruct (Z.ltb_spec (br_expiration_date a) (br_expiration_date b));
  destruct (Z.eqb_spec (br_expiration_date a) (br_expiration_date b));
  destruct (Z.leb_spec (br_ingredient_batch_id a) (br_ingredient_batch_id b));
  simpl; split; try lia; try tauto.
Qed.

Global Instance fefo_order_trans : Transitive fefo_order.
Proof. intros a b c. rewrite !fefo_order_alt. lia. Qed.


(** ** One iteration of the loop over the recipe lines *)

Lemma select_items_no_lots today session_token item rest db total :
  available_batches_query today db (ri_ingredient_id item) = [] ->
  select_items today session_token (item :: rest) db total =
  (db, (false,
        if 0 <? total_count (all_batches_query today db (ri_ingredient_id item))
        then NoAvailableLots (ri_ingredient_name item)
               (all_batches_query today db (ri_ingredient_id item))
        else NoBatchesExist (ri_ingredient_name item),
        0)).
Proof.
  intros Hnone. cbn [select_items]. cbv zeta. rewrite Hnone.
  by destruct (0 <? total_count _).
Qed.

Lemma select_items_short today session_token item rest db total :
  available_batches_query today db (ri_ingredient_id item) <> [] ->
  total_on_hand (available_batches_query today db (ri_ingredient_id item))
    < ri_total_qty_needed item ->
  select_items today session_token (item :: rest) db total =
  (db, (false,
        InsufficientTotal (ri_ingredient_name item) (ri_total_qty_needed item)
          (Z.of_nat
             (length (available_batches_query today db (ri_ingredient_id item))))
          (total_on_hand (available_batches_query today db (ri_ingredient_id item)))
          (ri_total_qty_needed item
           - total_on_hand
               (available_batches_query today db (ri_ingredient_id item))),
        0)).
Proof.
  intros Hsome Hshort. simpl. unfold total_on_hand in *.
  destruct (available_batches_query today db (ri_ingredient_id item))
    as [|lot lots] eqn:Hq; [done|].
  apply Z.ltb_lt in Hshort. by rewrite Hshort.
Qed.

Lemma select_items_covered today session_token item rest db total :
  coverable today db item ->
  select_items today session_token (item :: rest) db total =
  select_items today session_token rest
    (with_staging db
       (staging_consumption_tbl db ++ item_rows today db session_token item))
    (total + Z.of_nat (length (item_rows today db session_token item))).
Proof.
  intros [Hsome Hle].
  pose proof (available_in_stock today db (ri_ingredient_id item)) as Hpos.
  pose proof (fefo_walk_total session_token _ _ Hpos Hle) as Hsum.
  unfold item_rows. simpl. unfold total_on_hand in *.
  destruct (available_batches_query today db (ri_ingredient_id item))
    as [|lot lots] eqn:Hq; [done|].
  apply Z.ltb_ge in Hle. rewrite Hle.
  rewrite select_lots_walk. cbn [sel_db qty_remaining total_lots_selected].
  rewrite Hsum.
  destruct (Z.ltb_spec 0 (ri_total_qty_needed item
                          - Z.max 0 (ri_total_qty_needed item))); [lia|].
  reflexivity.
Qed.

Lemma coverable_dec today db item :
  {coverable today db item} + {~ coverable today db item}.
Proof.
  unfold coverable.
  destruct (available_batches_query today db (ri_ingredient_id item)) as [|l ls].
  - right. intros [? _]. done.
  - destruct (Z_le_gt_dec (ri_total_qty_needed item) (total_on_hand (l :: ls))).
    + left. done.
    + right. intros [_ ?]. lia.
Qed.

Lemma item_rows_with_staging today db rows :
  item_rows today (with_staging db rows) = item_rows today db.
Proof. reflexivity. Qed.

(** ** Runs of the whole loop *)

(** As long as the lines are coverable the loop stages their rows and goes on. *)
Lemma select_items_app today session_token pre rest db total :
  Forall (coverable today db) pre ->
  select_items today session_token (pre ++ rest) db total =
  select_items today session_token rest
    (with_staging db
       (staging_consumption_tbl db ++ (pre ≫= item_rows today db session_token)))
    (total + Z.of_nat (length (pre ≫= item_rows today db session_token))).
Proof.
  intros Hpre. revert db total Hpre.
  induction pre as [|item pre IH]; intros db total Hpre; simpl app.
  - simpl. rewrite app_nil_r, with_staging_same. f_equal. lia.
  - apply Forall_cons in Hpre as [Hitem Hpre].
    rewrite select_items_covered by done.
    rewrite IH by exact Hpre.
    rewrite with_staging_twice, bind_cons, length_app, Nat2Z.inj_add.
    cbn [staging_consumption_tbl with_staging].
    rewrite <- app_assoc, item_rows_with_staging. f_equal. lia.
Qed.

Lemma select_items_all_covered today session_token items db total :
  Forall (coverable today db) items ->
  select_items today session_token items db total =
  let rows := items ≫= item_rows today db session_token in
  let n := total + Z.of_nat (length rows) in
  (with_staging db (staging_consumption_tbl db ++ rows),
   (true, SuccessfullySelected n, n)).
Proof.
  intros Hall.
  rewrite <- (app_nil_r items) at 1.
  by rewrite select_items_app.
Qed.

(** Where a run stops: at the first line that is not coverable. *)
Lemma select_items_stop today session_token pre item post db total :
  Forall (coverable today db) pre ->
  ~ coverable today db item ->
  exists msg,
    select_items today session_token (pre ++ item :: post) db total =
    (with_staging db
       (staging_consumption_tbl db ++ (pre ≫= item_rows today db session_token)),
     (false, msg, 0)).
Proof.
  intros Hpre Hitem. rewrite select_items_app by done.
  destruct (available_batches_query today db (ri_ingredient_id item))
    as [|lot lots] eqn:Hq.
  - rewrite select_items_no_lots by done. eauto.
  - destruct (Z_le_gt_dec (ri_total_qty_needed item)
                (total_on_hand
                   (available_batches_query today db (ri_ingredient_id item))))
      as [Hle|Hgt].
    + destruct Hitem. split; [by rewrite Hq|done].
    + rewrite select_items_short; [eauto| |].
      * change (available_batches_query today db (ri_ingredient_id item) <> []).
        by rewrite Hq.
      * change (total_on_hand
                  (available_batches_query today db (ri_ingredient_id item))
                < ri_total_qty_needed item). lia.
Qed.

(** The first line that is not coverable, if any. *)
Lemma first_uncoverable today db items :
  Forall (coverable today db) items
  \/ exists pre item post,
       items = pre ++ item :: post
       /\ Forall (coverable today db) pre
       /\ ~ coverable today db item.
Proof.
  induction items as [|item items IH]; [by left|].
  destruct (coverable_dec today db item) as [Hc|Hn].
  - destruct IH as [Hall|(pre & it & post & -> & Hpre & Hit)].
    + left. by constructor.
    + right. exists (item :: pre), it, post. split; [done|].
      split; [by constructor|done].
  - right. exists [], item, items. split; [done|]. split; [constructor|done].
Qed.

(** ** What the staged rows of one recipe line are *)

Lemma fefo_walk_elem session_token lots needed r :
  Forall in_stock lots ->
  r ∈ fefo_walk session_token lots needed ->
  exists lot, lot ∈ lots /\ taken_from session_token lot r.
Proof.
  intros Hpos. revert needed.
  induction Hpos as [|lot rest Hlot Hrest IH]; intros needed; simpl.
  - by intros ?%elem_of_nil.
  - destruct (Z.leb_spec needed 0); [by intros ?%elem_of_nil|].
    intros [->|Hin]%elem_of_cons.
    + exists lot. split; [left|].
      unfold taken_from, in_stock in *. simpl. repeat split; try done; lia.
    + destruct (IH _ Hin) as (lot' & Hlot' & Htaken).
      exists lot'. split; [by right|done].
Qed.

Lemma item_rows_drawn today db session_token item :
  Forall (drawn_from today db session_token (ri_ingredient_id item))
    (item_rows today db session_token item).
Proof.
  apply Forall_forall. intros r Hr.
  apply fefo_walk_elem in Hr as (lot & Hlot & Htok & Hid & Hqty);
    [|apply available_in_stock].
  apply elem_of_available in Hlot as (ib & s & Hib & _ & Hel & Hrow).
  split; [done|]. exists ib. rewrite Hid. split; [done|]. split; [done|].
  rewrite Hrow in Hqty. exact Hqty.
Qed.

Lemma filter_all {A} (P : A -> Prop) `{!forall x, Decision (P x)} (l : list A) :
  Forall P l -> filter P l = l.
Proof.
  induction 1 as [|x l Hx _ IH]; [done|].
  by rewrite filter_cons_True, IH.
Qed.

Lemma filter_none {A} (P : A -> Prop) `{!forall x, Decision (P x)} (l : list A) :
  Forall (fun x => ~ P x) l -> filter P l = [].
Proof.
  induction 1 as [|x l Hx _ IH]; [done|].
  by rewrite filter_cons_False.
Qed.






(** ** Properties of the recipe query *)

Lemma elem_of_recipe_items db recipe_plan_id produced_units item :
  item ∈ recipe_items_query db recipe_plan_id produced_units <->
  exists rpi,
    rpi ∈ recipe_plan_item_tbl db
    /\ recipe_item_select db recipe_plan_id produced_units rpi = Some item.
Proof.
  unfold recipe_items_query.
  by rewrite merge_sort_Permutation, list_elem_of_omap.
Qed.

Lemma recipe_item_select_Some db recipe_plan_id produced_units rpi item :
  recipe_item_select db recipe_plan_id produced_units rpi = Some item ->
  rpi_recipe_plan_id rpi = recipe_plan_id
  /\ ri_ingredient_id item = rpi_ingredient_id rpi
  /\ ri_qty_oz_per_unit item = rpi_qty_oz_per_unit rpi
  /\ ri_total_qty_needed item = ri_qty_oz_per_unit item * produced_units.
Proof.
  unfold recipe_item_select.
  destruct (ingredient_tbl db !! rpi_ingredient_id rpi); [|done].
  destruct (Z.eqb_spec (rpi_recipe_plan_id rpi) recipe_plan_id); [|done].
  by intros [= <-].
Qed.

(** ** The whole selection *)

Lemma auto_select_lots_fefo_items today recipe_plan_id produced_units
    session_token db :
  recipe_items_query db recipe_plan_id produced_units <> [] ->
  auto_select_lots_fefo today recipe_plan_id produced_units session_token db
  = select_items today session_token
      (recipe_items_query db recipe_plan_id produced_units) db 0.
Proof.
  unfold auto_select_lots_fefo.
  by destruct (recipe_items_query db recipe_plan_id produced_units).
Qed.



(** ** Order of the lots *)






(** ** Every run, whatever its result *)

Lemma auto_select_lots_fefo_run today recipe_plan_id produced_units
    session_token db :
  exists pre post,
    recipe_items_query db recipe_plan_id produced_units = pre ++ post
    /\ Forall (coverable today db) pre
    /\ (auto_select_lots_fefo today recipe_plan_id produced_units
          session_token db).1
       = with_staging db
           (staging_consumption_tbl db
              ++ (pre ≫= item_rows today db session_token)).
Proof.
  unfold auto_select_lots_fefo.
  destruct (recipe_items_query db recipe_plan_id produced_units)
    as [|item0 items0] eqn:Hq.
  { exists [], []. split; [done|]. split; [constructor|]. simpl.
    by rewrite app_nil_r, with_staging_same. }
  destruct (first_uncoverable today db (item0 :: items0))
    as [Hall|(pre & item & post & Hsplit & Hpre & Hitem)].
  - exists (item0 :: items0), []. rewrite app_nil_r. split; [done|].
    split; [done|]. by rewrite select_items_all_covered.
  - exists pre, (item :: post). split; [done|]. split; [done|].
    destruct (select_items_stop today session_token pre item post db 0 Hpre Hitem)
      as [msg Hstop].
    by rewrite Hsplit, Hstop.
Qed.

Lemma auto_select_lots_fefo_written today recipe_plan_id produced_units
    session_token db :
  exists rows,
    staging_consumption_tbl
      (auto_select_lots_fefo today recipe_plan_id produced_units
         session_token db).1
    = staging_consumption_tbl db ++ rows
    /\ Forall (fun r => exists ingredient_id,
                 drawn_from today db session_token ingredient_id r) rows.
Proof.
  destruct (auto_select_lots_fefo_run today recipe_plan_id produced_units
              session_token db) as (pre & post & _ & _ & ->).
  eexists. split; [reflexivity|].
  apply Forall_bind, Forall_forall. intros item _. simpl.
  eapply Forall_impl; [apply item_rows_drawn|]. eauto.
Qed.


(** ** Lines without an eligible lot *)

Lemma no_eligible_no_available today db ingredient_id :
  Forall (fun kv => ib_on_hand_oz kv.2 <= 0 \/ ib_expiration_date kv.2 < today)
    (batches_of db ingredient_id) ->
  available_batches_query today db ingredient_id = [].
Proof.
  intros Hnone.
  destruct (available_batches_query today db ingredient_id) as [|row rows] eqn:Hq;
    [done|exfalso].
  assert (Hrow : row ∈ available_batches_query today db ingredient_id)
    by (rewrite Hq; left).
  apply elem_of_available in Hrow as (ib & s & Hib & _ & (Hing & Hpos & Hexp) & _).
  rewrite Forall_forall in Hnone.
  specialize (Hnone (br_ingredient_batch_id row, ib)). simpl in Hnone.
  destruct Hnone; [|lia..].
  apply list_elem_of_filter. split; [done|]. by apply elem_of_map_to_list.
Qed.

Lemma total_count_positive today db ingredient_id :
  batches_of db ingredient_id <> [] ->
  0 < total_count (all_batches_query today db ingredient_id).
Proof.
  intros Hne. simpl. destruct (batches_of db ingredient_id); [done|]. simpl. lia.
Qed.

(** C4.  Only lots with a positive on-hand quantity that expire today or
    later take part: every row a selection writes refers to such a lot.
    And when the selection reaches a recipe line whose ingredient has lots
    but every one of them is expired or without stock, it fails with the
    no-available-lots message (which is not the insufficient-stock one). *)
Theorem fefo_only_eligible_lots today recipe_plan_id produced_units session_token db :
  let run := auto_select_lots_fefo today recipe_plan_id produced_units
               session_token db in
  (exists rows,
     staging_consumption_tbl run.1 = staging_consumption_tbl db ++ rows
     /\ Forall (fun r => exists ib,
                  ingredient_batch_tbl db !! sc_ingredient_batch_id r = Some ib
                  /\ 0 < ib_on_hand_oz ib
                  /\ today <= ib_expiration_date ib) rows)
  /\ forall pre item post,
       recipe_items_query db recipe_plan_id produced_units = pre ++ item :: post ->
       Forall (coverable today db) pre ->
       batches_of db (ri_ingredient_id item) <> [] ->
       Forall (fun kv => ib_on_hand_oz kv.2 <= 0
                         \/ ib_expiration_date kv.2 < today)
         (batches_of db (ri_ingredient_id item)) ->
       run.2 = (false,
                NoAvailableLots (ri_ingredient_name item)
                  (all_batches_query today db (ri_ingredient_id item)),
                0)
       /\ forall name need lots available shortage,
            run.2.1.2 <> InsufficientTotal name need lots available shortage.
Proof.
  intros run. split.
  - destruct (auto_select_lots_fefo_written today recipe_plan_id produced_units
                session_token db) as (rows & Hrows & Hdrawn).
    exists rows. split; [done|].
    eapply Forall_impl; [exact Hdrawn|].
    intros r (ing & _ & ib & Hib & (_ & Hpos & Hexp) & _). eauto.
  - intros pre item post Hsplit Hpre Hlots Hnone.
    assert (Hrun : run.2 = (false,
                NoAvailableLots (ri_ingredient_name item)
                  (all_batches_query today db (ri_ingredient_id item)), 0)).
    { unfold run. rewrite auto_select_lots_fefo_items by (rewrite Hsplit; by destruct pre).
      rewrite Hsplit, select_items_app by done.
      rewrite select_items_no_lots by (by apply no_eligible_no_available).
      pose proof (total_count_positive today db _ Hlots) as Hcount.
      apply Z.ltb_lt in Hcount.
      change (total_count (all_batches_query today
                (with_staging db
                   (staging_consumption_tbl db
                      ++ (pre ≫= item_rows today db session_token)))
                (ri_ingredient_id item)))
        with (total_count (all_batches_query today db (ri_ingredient_id item))).
      by rewrite Hcount. }
    split; [done|]. by rewrite Hrun.
Qed.

(** ** Shortage and exact fit *)



(** ** Failures after rows have been staged *)

(** C2 at a failing input.  Recipe 11 needs flour and salt.  The flour line
    is staged; the salt line then fails a stock check, and the function
    returns without deleting the rows of the session: the rows staged for
    flour remain under the token.  Both early returns behave this way: the
    insufficient-total one (day 100) and the no-available-lots one (day 111,
    the salt lot has expired). *)
Theorem fefo_failure_keeps_staged_rows :
  let short := auto_select_lots_fefo 100 11 5 "tok" plant in
  let expired := auto_select_lots_fefo 111 11 5 "tok" plant in
  short.2 = (false, InsufficientTotal "Salt" 5 1 3 2, 0)
  /\ filter (fun r => sc_session_token r = "tok") (staging_consumption_tbl short.1)
     = [ {| sc_session_token := "tok"; sc_ingredient_batch_id := 9001;
            sc_qty_oz := 4 |};
         {| sc_session_token := "tok"; sc_ingredient_batch_id := 9002;
            sc_qty_oz := 6 |} ]
  /\ expired.2 = (false,
                  NoAvailableLots "Salt"
                    {| total_count := 1; with_stock := 1; expired := 1 |},
                  0)
  /\ filter (fun r => sc_session_token r = "tok") (staging_consumption_tbl expired.1)
     = [ {| sc_session_token := "tok"; sc_ingredient_batch_id := 9002;
            sc_qty_oz := 10 |} ].
Proof. vm_compute. done. Qed.

(** ** Runs of [create_product_batch] *)

Section Runs.

Variable sp_record_product_batch :
  batch_call -> database -> option (list created_batch) * database.

Lemma create_product_batch_chosen u answers uuid today db mfg_id recipe_plan_id :
  recipe_chosen u answers db mfg_id recipe_plan_id ->
  create_product_batch sp_record_product_batch u answers uuid today db =
  match ans_batch_units answers with
  | Blank => (db, NoUnitsGiven)
  | NotInt => (db, InvalidQuantity)
  | Int batch_units =>
      stage_and_create sp_record_product_batch answers mfg_id recipe_plan_id
        batch_units uuid today db
  end.
Proof.
  intros (Hmfg & Hne & Hactive & Hrecipe & Hcheck).
  unfold create_product_batch. rewrite Hmfg.
  destruct (String.eqb_spec mfg_id ""); [done|].
  destruct (active_recipes_query db mfg_id); [done|].
  rewrite Hrecipe.
  by destruct (recipe_check_query db recipe_plan_id mfg_id).
Qed.

Lemma create_product_batch_staged u answers uuid today db db' outcome :
  create_product_batch sp_record_product_batch u answers uuid today db
  = (db', outcome) ->
  (db' = db /\ ends_early outcome)
  \/ exists mfg_id recipe_plan_id batch_units,
       recipe_chosen u answers db mfg_id recipe_plan_id
       /\ ans_batch_units answers = Int batch_units
       /\ stage_and_create sp_record_product_batch answers mfg_id recipe_plan_id
            batch_units uuid today db = (db', outcome).
Proof.
  unfold create_product_batch.
  destruct (_get_manufacturer_id u) as [mfg_id|] eqn:Hmfg;
    [|intros [= <- <-]; by left].
  destruct (String.eqb_spec mfg_id ""); [intros [= <- <-]; by left|].
  destruct (active_recipes_query db mfg_id) eqn:Hactive;
    [intros [= <- <-]; by left|].
  destruct (ans_recipe_plan_id answers) as [recipe_plan_id|] eqn:Hrecipe;
    [|intros [= <- <-]; by left].
  destruct (recipe_check_query db recipe_plan_id mfg_id) eqn:Hcheck;
    [intros [= <- <-]; by left|].
  destruct (ans_batch_units answers) as [| |batch_units] eqn:Hunits;
    [intros [= <- <-]; by left..|].
  intros Hrun. right. exists mfg_id, recipe_plan_id, batch_units.
  split; [|done]. unfold recipe_chosen. rewrite Hactive, Hcheck. done.
Qed.

(** *** Quantities that are not positive *)

Lemma bind_all_nil {A B} (f : A -> list B) (l : list A) :
  Forall (fun x => f x = []) l -> l ≫= f = [].
Proof.
  induction 1 as [|x l Hx _ IH]; [done|].
  by rewrite bind_cons, Hx, IH.
Qed.

Lemma nothing_needed db recipe_plan_id produced_units :
  produced_units <= 0 ->
  Forall (fun rpi => 0 <= rpi_qty_oz_per_unit rpi) (recipe_plan_item_tbl db) ->
  Forall (fun item => ri_total_qty_needed item <= 0)
    (recipe_items_query db recipe_plan_id produced_units).
Proof.
  intros Hunits Hqty. apply Forall_forall. intros item Hitem.
  apply elem_of_recipe_items in Hitem as (rpi & Hrpi & Hsel).
  apply recipe_item_select_Some in Hsel as (_ & _ & Hq & ->).
  rewrite Forall_forall in Hqty. specialize (Hqty _ Hrpi). nia.
Qed.

Lemma nothing_needed_no_rows today db session_token items :
  Forall (fun item => ri_total_qty_needed item <= 0) items ->
  items ≫= item_rows today db session_token = [].
Proof.
  intros Hall. apply bind_all_nil. eapply Forall_impl; [exact Hall|].
  intros item Hitem. by apply fefo_walk_nothing_needed.
Qed.

(** C6 (as amended).  Once the recipe plan is chosen: an answer for the
    batch units that is not an integer ends the run with "Invalid
    quantity", the database unchanged; an integer is not checked for its
    sign.  Under the FEFO choice, a recipe without ingredient lines ends the
    run with the no-ingredients failure, the database unchanged; and for
    units that are zero or negative (quantities per unit being
    non-negative) the selection stages no lot, and it succeeds, with zero
    lots selected, when every ingredient of the recipe has an eligible
    lot. *)
Theorem units_and_recipe_checks u answers uuid today db mfg_id recipe_plan_id :
  recipe_chosen u answers db mfg_id recipe_plan_id ->
  let run := create_product_batch sp_record_product_batch u answers uuid today db in
  (ans_batch_units answers = NotInt -> run = (db, InvalidQuantity))
  /\ forall units,
       ans_batch_units answers = Int units ->
       ans_selection_choice answers = "1" ->
       let items := recipe_items_query db recipe_plan_id units in
       let fefo := auto_select_lots_fefo today recipe_plan_id units uuid db in
       (items = [] -> run = (db, FefoFailed NoIngredientsFound))
       /\ (units <= 0 ->
           Forall (fun rpi => 0 <= rpi_qty_oz_per_unit rpi)
             (recipe_plan_item_tbl db) ->
           fefo.1 = db
           /\ (items <> [] ->
               Forall (fun item =>
                         available_batches_query today db (ri_ingredient_id item)
                         <> []) items ->
               fefo.2 = (true, SuccessfullySelected 0, 0))).
Proof.
  intros Hchosen run. unfold run.
  rewrite (create_product_batch_chosen _ _ _ _ _ _ _ Hchosen).
  split; [by intros ->|].
  intros units -> Hchoice.
  set (items := recipe_items_query db recipe_plan_id units).
  set (fefo := auto_select_lots_fefo today recipe_plan_id units uuid db).
  split.
  - intros Hnone. unfold stage_and_create. rewrite Hchoice. simpl.
    unfold auto_select_lots_fefo. fold items. by rewrite Hnone.
  - intros Hunits Hqty.
    pose proof (nothing_needed db recipe_plan_id units Hunits Hqty) as Hneeded.
    fold items in Hneeded. split.
    + destruct (auto_select_lots_fefo_run today recipe_plan_id units uuid db)
        as (pre & post & Hsplit & _ & Hdb).
      fold items in Hsplit. fold fefo in Hdb. rewrite Hdb.
      rewrite nothing_needed_no_rows, app_nil_r, with_staging_same; [done|].
      rewrite Hsplit in Hneeded. by apply Forall_app in Hneeded as [? _].
    + intros Hsome Hlots. unfold fefo.
      rewrite auto_select_lots_fefo_items by done. fold items.
      rewrite select_items_all_covered.
      * cbv zeta. by rewrite nothing_needed_no_rows.
      * apply Forall_forall. intros item Hitem.
        rewrite Forall_forall in Hneeded, Hlots.
        split; [by apply Hlots|].
        pose proof (total_on_hand_nonneg _
          (available_in_stock today db (ri_ingredient_id item))).
        specialize (Hneeded _ Hitem). simpl in Hneeded. lia.
Qed.

(** *** The confirmation *)

Lemma confirm_and_create_cancelled answers mfg_id recipe_plan_id batch_units
    session_token staging db db' :
  confirm_and_create sp_record_product_batch answers mfg_id recipe_plan_id
    batch_units session_token staging db = (db', Cancelled) ->
  db' = clean_up session_token db.
Proof.
  unfold confirm_and_create. intros Hrun.
  repeat case_match; by simplify_eq.
Qed.

Lemma delete_staging_after_fefo today recipe_plan_id produced_units
    session_token db :
  delete_staging session_token
    (auto_select_lots_fefo today recipe_plan_id produced_units session_token db).1
  = delete_staging session_token db.
Proof.
  destruct (auto_select_lots_fefo_written today recipe_plan_id produced_units
              session_token db) as (rows & Hrows & Hdrawn).
  destruct (auto_select_lots_fefo_run today recipe_plan_id produced_units
              session_token db) as (pre & post & _ & _ & Hdb).
  rewrite Hdb in Hrows |- *. simpl in Hrows. apply app_inv_head in Hrows.
  unfold delete_staging. rewrite with_staging_twice. f_equal.
  cbn [staging_consumption_tbl with_staging].
  rewrite filter_app, Hrows, (filter_none _ rows), app_nil_r; [done|].
  eapply Forall_impl; [exact Hdrawn|]. intros r (ing & Htok & _) Hne. done.
Qed.

(** C10.  When the final confirmation is declined: after the FEFO choice
    the rows of the session token are deleted, whatever else is staged and
    every other table staying as it was; after the choice of the existing
    staging records, for which no session token is kept, the database is
    left unchanged. *)
Theorem declined_confirmation u answers uuid today db db' :
  create_product_batch sp_record_product_batch u answers uuid today db
  = (db', Cancelled) ->
  (ans_selection_choice answers = "1" -> uuid <> "" ->
   db' = delete_staging uuid db
   /\ Forall (fun r => sc_session_token r <> uuid) (staging_consumption_tbl db'))
  /\ (ans_selection_choice answers = "2" -> db' = db).
Proof.
  intros Hrun.
  apply create_product_batch_staged in Hrun
    as [[_ Hout]|(mfg_id & recipe_plan_id & units & _ & _ & Hrun)];
    [done|].
  unfold stage_and_create in Hrun. split.
  - intros Hchoice Huuid. rewrite Hchoice in Hrun. simpl in Hrun.
    destruct (auto_select_lots_fefo today recipe_plan_id units uuid db)
      as [db1 [[success message] lots]] eqn:Hfefo.
    destruct success; simpl in Hrun; [|done].
    apply confirm_and_create_cancelled in Hrun. simpl in Hrun.
    destruct (String.eqb_spec uuid ""); [done|]. simpl in Hrun.
    assert (Hdb1 : db1 = (auto_select_lots_fefo today recipe_plan_id units
                            uuid db).1) by (by rewrite Hfefo).
    rewrite Hrun, Hdb1, delete_staging_after_fefo. split; [done|].
    apply Forall_forall. intros r Hr. simpl in Hr.
    by apply list_elem_of_filter in Hr as [? _].
  - intros Hchoice. rewrite Hchoice in Hrun. simpl in Hrun.
    destruct (all_staging_query db);
      [destruct (negb (String.eqb (ans_proceed answers) "y")); [done|]|];
      by apply confirm_and_create_cancelled in Hrun.
Qed.

(** *** The call of the procedure *)

Lemma confirm_and_create_call answers mfg_id recipe_plan_id batch_units
    session_token staging db db' outcome call listed :
  confirm_and_create sp_record_product_batch answers mfg_id recipe_plan_id
    batch_units session_token staging db = (db', outcome) ->
  outcome_call outcome = Some (call, listed) ->
  listed = staging
  /\ call_session_token call
     = match session_token with
       | Some t => if token_set session_token then t else ""
       | None => ""
       end
  /\ call_produced_units call = batch_units
  /\ (db', outcome)
     = match sp_record_product_batch call db with
       | (Some result, d) => (d, BatchCreated call listed result)
       | (None, d) => (clean_up session_token d, CreationError call listed)
       end.
Proof.
  unfold confirm_and_create. intros Hrun Hcall.
  destruct (recipe_plan_tbl db !! recipe_plan_id); [|by simplify_eq].
  destruct (negb (String.eqb (ans_confirm answers) "y")); [by simplify_eq|].
  destruct (sp_record_product_batch _ db) as [[result|] d] eqn:Hsp;
    simplify_eq; simpl in *; simplify_eq; by rewrite Hsp.
Qed.

(** C7.  After the choice of the existing staging records no session token
    is kept: when the run gets to the call, the procedure receives the
    empty token, on a database the run has not touched, and the rows listed
    for confirmation as about to be applied are all the rows of the staging
    table, of whichever session.  For the empty token the commit works on
    every staged row ([commit_scope], from the specification). *)
Theorem legacy_commit_is_unscoped u answers uuid today db db' outcome call listed :
  ans_selection_choice answers = "2" ->
  create_product_batch sp_record_product_batch u answers uuid today db
  = (db', outcome) ->
  outcome_call outcome = Some (call, listed) ->
  call_session_token call = ""
  /\ listed = all_staging_query db
  /\ (db', outcome)
     = match sp_record_product_batch call db with
       | (Some result, d) => (d, BatchCreated call listed result)
       | (None, d) => (d, CreationError call listed)
       end
  /\ commit_scope (call_session_token call) (staging_consumption_tbl db)
     = staging_consumption_tbl db.
Proof.
  intros Hchoice Hrun Hcall.
  apply create_product_batch_staged in Hrun
    as [[_ Hout]|(mfg_id & recipe_plan_id & units & _ & _ & Hrun)].
  { by destruct outcome. }
  unfold stage_and_create in Hrun. rewrite Hchoice in Hrun. simpl in Hrun.
  assert (Hcreate :
    confirm_and_create sp_record_product_batch answers mfg_id recipe_plan_id
      units None (all_staging_query db) db = (db', outcome)).
  { destruct (all_staging_query db);
      [destruct (negb (String.eqb (ans_proceed answers) "y"));
         [by simplify_eq|]|]; done. }
  destruct (confirm_and_create_call _ _ _ _ _ _ _ _ _ _ _ Hcreate Hcall)
    as (-> & Htoken & _ & Hsp).
  rewrite Htoken. done.
Qed.

End Runs.

(** ** Runs of [trace_product_recall] *)

Section Traces.

Variable sp_trace_recall : trace_call -> database -> option (list recall_row).

Lemma run_trace_call ingredient_id lot_number answers db :
  outcome_trace (run_trace sp_trace_recall ingredient_id lot_number answers db)
  = Some {| trace_ingredient_id := ingredient_id;
            trace_lot_number := lot_number;
            trace_days_window := days_window_of (ans_days_window answers) |}.
Proof. unfold run_trace. by repeat case_match. Qed.

(** C8 (as amended).  In every recall trace that gets to the call of the
    procedure, the window passed is 20 days when the answer is empty, 20
    days when the answer is not an integer, and otherwise the integer
    given, whatever its sign. *)
Theorem recall_window answers db call :
  outcome_trace (trace_product_recall sp_trace_recall answers db) = Some call ->
  (ans_days_window answers = Blank -> trace_days_window call = 20)
  /\ (ans_days_window answers = NotInt -> trace_days_window call = 20)
  /\ (forall n, ans_days_window answers = Int n -> trace_days_window call = n).
Proof.
  unfold trace_product_recall. intros Hcall.
  assert (Hwindow : trace_days_window call
                    = days_window_of (ans_days_window answers)).
  { repeat case_match; try discriminate;
      rewrite run_trace_call in Hcall; by simplify_eq. }
  rewrite Hwindow.
  repeat split; [intros ->..|intros n ->]; done.
Qed.

End Traces.

(** ** The theorems at work on the plant *)


(** Recipe 11 at day 111: the flour line is coverable, the only salt lot
    has expired. *)
Lemma fefo_only_eligible_lots_witness :
  let run := auto_select_lots_fefo 111 11 5 "tok" plant in
  run.2 = (false,
           NoAvailableLots "Salt" (all_batches_query 111 plant "ING002"),
           0)
  /\ forall name need lots available shortage,
       run.2.1.2 <> InsufficientTotal name need lots available shortage.
Proof.
  destruct (fefo_only_eligible_lots 111 11 5 "tok" plant) as [_ Hnone].
  apply (Hnone [flour_line 5] (salt_line 5) []).
  - vm_compute. reflexivity.
  - constructor; [|constructor]. split; by vm_compute.
  - by vm_compute.
  - vm_compute. constructor; [|constructor]. right. reflexivity.
Defined.


(** C6, as stated, fails for zero units: the answer is accepted, the FEFO
    selection succeeds with no lot selected, and the run goes on to the
    call of the procedure, with zero units. *)
Lemma zero_units_not_rejected :
  let run := create_product_batch consume_staging baker
               (fefo_answers 10 (Int 0) "y") "tok" 100 plant in
  (auto_select_lots_fefo 100 10 0 "tok" plant).2
  = (true, SuccessfullySelected 0, 0)
  /\ run.2 = BatchCreated
               {| call_session_token := "tok"; call_product_type_id := 100;
                  call_recipe_plan_id := 10; call_produced_units := 0;
                  call_manufacturer_id := "MFG001" |} [] []
  /\ run.2 <> InvalidQuantity.
Proof. vm_compute. repeat split; discriminate. Qed.

(** An answer that is not an integer; recipe 12, which has no lines; and a
    negative number of units for recipe 10. *)
Lemma units_and_recipe_checks_witness :
  create_product_batch consume_staging baker (fefo_answers 10 NotInt "y")
    "tok" 100 plant = (plant, InvalidQuantity)
  /\ create_product_batch consume_staging baker (fefo_answers 12 (Int 5) "y")
       "tok" 100 plant = (plant, FefoFailed NoIngredientsFound)
  /\ (auto_select_lots_fefo 100 10 (-1) "tok" plant).1 = plant
  /\ (auto_select_lots_fefo 100 10 (-1) "tok" plant).2
     = (true, SuccessfullySelected 0, 0).
Proof.
  assert (Hchosen : forall recipe_plan_id units,
            recipe_plan_id = 10 \/ recipe_plan_id = 12 ->
            recipe_chosen baker (fefo_answers recipe_plan_id units "y") plant
              "MFG001" recipe_plan_id).
  { intros recipe_plan_id units [-> | ->]; repeat split; by vm_compute. }
  split; [|split].
  - apply (units_and_recipe_checks consume_staging baker
             (fefo_answers 10 NotInt "y") "tok" 100 plant "MFG001" 10).
    + apply Hchosen. by left.
    + reflexivity.
  - destruct (units_and_recipe_checks consume_staging baker
                (fefo_answers 12 (Int 5) "y") "tok" 100 plant "MFG001" 12)
      as [_ Hint]; [apply Hchosen; by right|].
    destruct (Hint 5) as [Hnone _]; [reflexivity..|].
    apply Hnone. vm_compute. reflexivity.
  - destruct (units_and_recipe_checks consume_staging baker
                (fefo_answers 10 (Int (-1)) "y") "tok" 100 plant "MFG001" 10)
      as [_ Hint]; [apply Hchosen; by left|].
    destruct (Hint (-1)) as [_ Hneg]; [reflexivity..|].
    destruct Hneg as [Hdb Hres]; [lia|repeat constructor; simpl; lia|].
    split; [exact Hdb|]. apply Hres; [by vm_compute|].
    vm_compute. constructor; [done|constructor].
Defined.

(** The existing staging records of two other sessions, confirmed. *)
Lemma legacy_commit_is_unscoped_witness :
  let run := create_product_batch consume_staging baker (legacy_answers "y")
               "tok" 100 busy_plant in
  let call := {| call_session_token := ""; call_product_type_id := 100;
                 call_recipe_plan_id := 10; call_produced_units := 5;
                 call_manufacturer_id := "MFG001" |} in
  outcome_call run.2 = Some (call, all_staging_query busy_plant)
  /\ run = (match consume_staging call busy_plant with
            | (Some result, d) =>
                (d, BatchCreated call (all_staging_query busy_plant) result)
            | (None, d) => (d, CreationError call (all_staging_query busy_plant))
            end)
  /\ commit_scope "" (staging_consumption_tbl busy_plant)
     = staging_consumption_tbl busy_plant.
Proof.
  intros run call.
  assert (Hcall : outcome_call run.2 = Some (call, all_staging_query busy_plant))
    by (vm_compute; reflexivity).
  split; [exact Hcall|].
  destruct (legacy_commit_is_unscoped consume_staging baker (legacy_answers "y")
              "tok" 100 busy_plant run.1 run.2 call
              (all_staging_query busy_plant))
    as (_ & _ & Hrun & Hscope).
  - reflexivity.
  - apply surjective_pairing.
  - exact Hcall.
  - split; [|exact Hscope]. rewrite <- Hrun. apply surjective_pairing.
Defined.

(** The confirmation declined after either choice, with rows of two other
    sessions staged. *)
Lemma declined_confirmation_witness :
  (create_product_batch consume_staging baker (fefo_answers 10 (Int 5) "n")
     "tok" 100 busy_plant).1 = delete_staging "tok" busy_plant
  /\ (create_product_batch consume_staging baker (legacy_answers "n")
        "tok" 100 busy_plant).1 = busy_plant.
Proof.
  split.
  - destruct (declined_confirmation consume_staging baker
                (fefo_answers 10 (Int 5) "n") "tok" 100 busy_plant
                (create_product_batch consume_staging baker
                   (fefo_answers 10 (Int 5) "n") "tok" 100 busy_plant).1)
      as [Hfefo _]; [vm_compute; reflexivity|].
    apply Hfefo; [reflexivity|discriminate].
  - destruct (declined_confirmation consume_staging baker
                (legacy_answers "n") "tok" 100 busy_plant
                (create_product_batch consume_staging baker
                   (legacy_answers "n") "tok" 100 busy_plant).1)
      as [_ Hlegacy]; [vm_compute; reflexivity|].
    apply Hlegacy. reflexivity.
Defined.

(** C8, as stated, fails for a negative window: it is not rejected but
    passed to the procedure as it is. *)
Lemma negative_window_is_passed_on :
  trace_product_recall nothing_recalled (lot_trace (Int (-5))) plant
  = NothingFound {| trace_ingredient_id := None;
                    trace_lot_number := Some "L100";
                    trace_days_window := -5 |}.
Proof. reflexivity. Qed.

(** A trace by lot number with an empty answer, with an answer that is not
    an integer, and with 30 days. *)
Lemma recall_window_witness :
  (forall call,
     outcome_trace (trace_product_recall nothing_recalled (lot_trace Blank) plant)
     = Some call -> trace_days_window call = 20)
  /\ (forall call,
       outcome_trace (trace_product_recall nothing_recalled (lot_trace NotInt) plant)
       = Some call -> trace_days_window call = 20)
  /\ (forall call,
       outcome_trace
         (trace_product_recall nothing_recalled (lot_trace (Int 30)) plant)
       = Some call -> trace_days_window call = 30).
Proof.
  split; [|split]; intros call Hcall.
  - destruct (recall_window nothing_recalled (lot_trace Blank) plant call Hcall)
      as (Hblank & _ & _).
    apply Hblank. reflexivity.
  - destruct (recall_window nothing_recalled (lot_trace NotInt) plant call Hcall)
      as (_ & Hnot & _).
    apply Hnot. reflexivity.
  - destruct (recall_window nothing_recalled (lot_trace (Int 30)) plant call Hcall)
      as (_ & _ & Hint).
    apply Hint. reflexivity.
Defined.

(** * Further properties of the selection *)

(** ** The three ways a selection ends *)

Lemma auto_select_lots_fefo_cases today recipe_plan_id produced_units
    session_token db :
  let items := recipe_items_query db recipe_plan_id produced_units in
  let run := auto_select_lots_fefo today recipe_plan_id produced_units
               session_token db in
  (items = [] /\ run = (db, (false, NoIngredientsFound, 0)))
  \/ (items <> []
      /\ Forall (coverable today db) items
      /\ run = (with_staging db
                  (staging_consumption_tbl db
                     ++ (items ≫= item_rows today db session_token)),
                (true,
                 SuccessfullySelected
                   (Z.of_nat (length (items ≫= item_rows today db session_token))),
                 Z.of_nat (length (items ≫= item_rows today db session_token)))))
  \/ (exists pre item post msg,
        items = pre ++ item :: post
        /\ Forall (coverable today db) pre
        /\ ~ coverable today db item
        /\ run = (with_staging db
                    (staging_consumption_tbl db
                       ++ (pre ≫= item_rows today db session_token)),
                  (false, msg, 0))).
Proof.
  intros items run.
  destruct items as [|item0 items0] eqn:Hitems.
  { left. split; [done|]. unfold run, auto_select_lots_fefo.
    fold items. by rewrite Hitems. }
  right.
  assert (Hrun : run = select_items today session_token items db 0).
  { unfold run. rewrite auto_select_lots_fefo_items; [done|].
    fold items. by rewrite Hitems. }
  rewrite <- Hitems.
  destruct (first_uncoverable today db items)
    as [Hall|(pre & item & post & Hsplit & Hpre & Hitem)].
  - left. split; [by rewrite Hitems|]. split; [done|].
    by rewrite Hrun, select_items_all_covered.
  - right. exists pre, item, post.
    destruct (select_items_stop today session_token pre item post db 0 Hpre Hitem)
      as [msg Hstop].
    exists msg. rewrite Hrun, Hsplit. done.
Qed.

(** X1.  The number of lots a selection reports is the number of rows it
    wrote: on success the third component of the result counts the rows
    added to the staging table and the message carries the same number; on
    failure it is 0, whatever was staged before the failing line. *)
Theorem fefo_reports_the_rows_written today recipe_plan_id produced_units
    session_token db :
  let run := auto_select_lots_fefo today recipe_plan_id produced_units
               session_token db in
  match run.2 with
  | (true, msg, lots) =>
      msg = SuccessfullySelected lots
      /\ Z.of_nat (length (staging_consumption_tbl run.1))
         = Z.of_nat (length (staging_consumption_tbl db)) + lots
  | (false, _, lots) => lots = 0
  end.
Proof.
  intros run.
  destruct (auto_select_lots_fefo_cases today recipe_plan_id produced_units
              session_token db)
    as [[_ Hrun]|[(_ & _ & Hrun)|(pre & item & post & msg & _ & _ & _ & Hrun)]];
    fold run in Hrun; rewrite Hrun; simpl; [done| |done].
  split; [done|]. rewrite length_app. lia.
Qed.



(** ** At most one lot is taken in part *)

Lemma fefo_walk_whole_lots session_token lots needed :
  Forall2 (fun lot r => sc_qty_oz r = br_on_hand_oz lot)
    (take (length (fefo_walk session_token lots needed) - 1)%nat lots)
    (take (length (fefo_walk session_token lots needed) - 1)%nat
       (fefo_walk session_token lots needed)).
Proof.
  revert needed. induction lots as [|lot rest IH]; intros needed; simpl;
    [constructor|].
  destruct (Z.leb_spec needed 0); simpl; [constructor|].
  rewrite Nat.sub_0_r.
  specialize (IH (needed - Z.min needed (br_on_hand_oz lot))).
  destruct (fefo_walk session_token rest
              (needed - Z.min needed (br_on_hand_oz lot)))
    as [|r rows] eqn:Hwalk; simpl; [constructor|].
  simpl in IH. rewrite Nat.sub_0_r in IH.
  constructor; [|exact IH]. simpl.
  destruct (Z.le_gt_cases (needed - Z.min needed (br_on_hand_oz lot)) 0)
    as [Hdone|Hmore]; [|lia].
  by rewrite fefo_walk_nothing_needed in Hwalk.
Qed.

(** X4.  Of the lots the loop stages for one ingredient only the last can
    be taken in part: every row but the last stages the entire on-hand
    quantity of its lot. *)
Theorem fefo_takes_whole_lots_but_the_last session_token lots s :
  exists rows,
    staging_consumption_tbl (sel_db (select_lots session_token lots s))
    = staging_consumption_tbl (sel_db s) ++ rows
    /\ Forall2 (fun lot r => sc_ingredient_batch_id r = br_ingredient_batch_id lot)
         (take (length rows) lots) rows
    /\ Forall2 (fun lot r => sc_qty_oz r = br_on_hand_oz lot)
         (take (length rows - 1)%nat lots) (take (length rows - 1)%nat rows).
Proof.
  exists (fefo_walk session_token lots (qty_remaining s)).
  rewrite select_lots_walk. split; [done|]. split.
  - generalize (qty_remaining s). clear s.
    induction lots as [|lot rest IH]; intros needed; simpl; [constructor|].
    destruct (Z.leb_spec needed 0); simpl; [constructor|].
    constructor; [done|apply IH].
  - apply fefo_walk_whole_lots.
Qed.

(** ** Staging reserves nothing *)

Lemma fefo_walk_other_token t1 t2 lots needed :
  fefo_walk t2 lots needed
  = (fun r => {| sc_session_token := t2;
                 sc_ingredient_batch_id := sc_ingredient_batch_id r;
                 sc_qty_oz := sc_qty_oz r |})
      <$> fefo_walk t1 lots needed.
Proof.
  revert needed. induction lots as [|lot rest IH]; intros needed; simpl; [done|].
  destruct (Z.leb_spec needed 0); simpl; [done|].
  by rewrite IH.
Qed.

Lemma select_items_two_sessions today t1 t2 items db staged1 staged2 total :
  exists rows res,
    select_items today t1 items (with_staging db staged1) total
    = (with_staging db (staged1 ++ rows), res)
    /\ select_items today t2 items (with_staging db staged2) total
       = (with_staging db
            (staged2
               ++ ((fun r => {| sc_session_token := t2;
                                sc_ingredient_batch_id := sc_ingredient_batch_id r;
                                sc_qty_oz := sc_qty_oz r |}) <$> rows)),
          res).
Proof.
  revert staged1 staged2 total.
  induction items as [|item items IH]; intros staged1 staged2 total.
  { exists [], (true, SuccessfullySelected total, total). simpl.
    by rewrite !app_nil_r. }
  destruct (coverable_dec today db item) as [Hc|Hn].
  - rewrite !select_items_covered by exact Hc.
    cbn [staging_consumption_tbl with_staging]. rewrite !with_staging_twice.
    rewrite !item_rows_with_staging.
    assert (Hrows : item_rows today db t2 item
                    = (fun r => {| sc_session_token := t2;
                                   sc_ingredient_batch_id := sc_ingredient_batch_id r;
                                   sc_qty_oz := sc_qty_oz r |})
                        <$> item_rows today db t1 item)
      by apply fefo_walk_other_token.
    rewrite Hrows, length_fmap.
    destruct (IH (staged1 ++ item_rows today db t1 item)
                (staged2
                   ++ ((fun r => {| sc_session_token := t2;
                                    sc_ingredient_batch_id := sc_ingredient_batch_id r;
                                    sc_qty_oz := sc_qty_oz r |})
                         <$> item_rows today db t1 item))
                (total + Z.of_nat (length (item_rows today db t1 item))))
      as (rows & res & Hrun1 & Hrun2).
    exists (item_rows today db t1 item ++ rows), res.
    rewrite Hrun1, Hrun2, fmap_app, !app_assoc. done.
  - exists []. simpl fmap. rewrite !app_nil_r.
    destruct (available_batches_query today db (ri_ingredient_id item))
      as [|lot lots] eqn:Hq.
    + eexists. rewrite !select_items_no_lots by exact Hq. split; reflexivity.
    + assert (Hshort : total_on_hand
                         (available_batches_query today db (ri_ingredient_id item))
                       < ri_total_qty_needed item).
      { destruct (Z.le_gt_cases (ri_total_qty_needed item)
                    (total_on_hand
                       (available_batches_query today db (ri_ingredient_id item))));
          [|lia].
        destruct Hn. split; [by rewrite Hq|done]. }
      assert (Hsome : available_batches_query today db (ri_ingredient_id item)
                      <> []) by (by rewrite Hq).
      eexists.
      rewrite (select_items_short today t1 item items (with_staging db staged1)
                 total Hsome Hshort).
      rewrite (select_items_short today t2 item items (with_staging db staged2)
                 total Hsome Hshort).
      split; reflexivity.
Qed.

(** X5.  Staging reserves no stock.  A second selection for the same
    recipe and units, run under another token on the database the first
    one left, returns the same result and stages the same lots with the
    same quantities again, beside the rows of the first. *)
Theorem fefo_second_session_stages_the_same today recipe_plan_id produced_units
    t1 t2 db :
  let first := auto_select_lots_fefo today recipe_plan_id produced_units t1 db in
  let second := auto_select_lots_fefo today recipe_plan_id produced_units t2
                  first.1 in
  second.2 = first.2
  /\ exists rows,
       staging_consumption_tbl first.1 = staging_consumption_tbl db ++ rows
       /\ staging_consumption_tbl second.1
          = staging_consumption_tbl db ++ rows
              ++ ((fun r => {| sc_session_token := t2;
                               sc_ingredient_batch_id := sc_ingredient_batch_id r;
                               sc_qty_oz := sc_qty_oz r |}) <$> rows).
Proof.
  intros first second. unfold second, first, auto_select_lots_fefo.
  destruct (recipe_items_query db recipe_plan_id produced_units)
    as [|item items] eqn:Hq.
  { simpl. rewrite Hq. split; [done|]. exists []. by rewrite !app_nil_r. }
  destruct (select_items_two_sessions today t1 t2 (item :: items) db
              (staging_consumption_tbl db) (staging_consumption_tbl db) 0)
    as (rows & res & Hrun1 & _).
  rewrite with_staging_same in Hrun1. rewrite Hrun1. cbn [fst snd].
  change (recipe_items_query
            (with_staging db (staging_consumption_tbl db ++ rows))
            recipe_plan_id produced_units)
    with (recipe_items_query db recipe_plan_id produced_units).
  rewrite Hq.
  destruct (select_items_two_sessions today t1 t2 (item :: items) db
              (staging_consumption_tbl db) (staging_consumption_tbl db ++ rows) 0)
    as (rows' & res' & Hrun1' & Hrun2).
  rewrite with_staging_same, Hrun1 in Hrun1'.
  injection Hrun1' as Hrows <-.
  apply app_inv_head in Hrows as <-.
  rewrite Hrun2. cbn [fst snd staging_consumption_tbl with_staging].
  split; [done|]. exists rows. by rewrite <- app_assoc.
Qed.

(** * Further properties of [create_product_batch] *)

Lemma recipe_check_query_Some db recipe_plan_id mfg_id :
  recipe_check_query db recipe_plan_id mfg_id <> [] ->
  exists rp pt,
    recipe_plan_tbl db !! recipe_plan_id = Some rp
    /\ product_type_tbl db !! rp_product_type_id rp = Some pt
    /\ pt_manufacturer_id pt = mfg_id.
Proof.
  unfold recipe_check_query.
  destruct (recipe_plan_tbl db !! recipe_plan_id) as [rp|]; [|done].
  destruct (product_type_tbl db !! rp_product_type_id rp) as [pt|] eqn:Hpt;
    [|done].
  destruct (String.eqb_spec (pt_manufacturer_id pt) mfg_id); [|done].
  intros _. by exists rp, pt.
Qed.

Section MoreRuns.

Variable sp_record_product_batch :
  batch_call -> database -> option (list created_batch) * database.

Lemma confirm_and_create_outcome answers mfg_id recipe_plan_id batch_units
    session_token staging db db' outcome call listed :
  confirm_and_create sp_record_product_batch answers mfg_id recipe_plan_id
    batch_units session_token staging db = (db', outcome) ->
  outcome_call outcome = Some (call, listed) ->
  exists rp,
    recipe_plan_tbl db !! recipe_plan_id = Some rp
    /\ call = {| call_session_token :=
                   match session_token with
                   | Some t => if token_set session_token then t else ""
                   | None => ""
                   end;
                 call_product_type_id := rp_product_type_id rp;
                 call_recipe_plan_id := recipe_plan_id;
                 call_produced_units := batch_units;
                 call_manufacturer_id := mfg_id |}
    /\ listed = staging
    /\ ans_confirm answers = "y"
    /\ (db', outcome)
       = match sp_record_product_batch call db with
         | (Some result, d) => (d, BatchCreated call listed result)
         | (None, d) => (clean_up session_token d, CreationError call listed)
         end.
Proof.
  unfold confirm_and_create. intros Hrun Hcall.
  destruct (recipe_plan_tbl db !! recipe_plan_id) as [rp|]; [|by simplify_eq].
  exists rp. split; [done|].
  destruct (String.eqb_spec (ans_confirm answers) "y") as [Hyes|];
    simpl in Hrun; [|by simplify_eq].
  destruct (sp_record_product_batch _ db) as [[result|] d] eqn:Hsp;
    simplify_eq; simpl in *; simplify_eq; by rewrite Hsp.
Qed.

(** What [stage_and_create] hands to [confirm_and_create] when the run gets
    to the call. *)
Lemma stage_and_create_call answers mfg_id recipe_plan_id batch_units uuid today
    db db' outcome call listed :
  stage_and_create sp_record_product_batch answers mfg_id recipe_plan_id
    batch_units uuid today db = (db', outcome) ->
  outcome_call outcome = Some (call, listed) ->
  (ans_selection_choice answers = "1"
   /\ confirm_and_create sp_record_product_batch answers mfg_id recipe_plan_id
        batch_units (Some uuid)
        (session_staging_query
           (auto_select_lots_fefo today recipe_plan_id batch_units uuid db).1 uuid)
        (auto_select_lots_fefo today recipe_plan_id batch_units uuid db).1
      = (db', outcome))
  \/ (ans_selection_choice answers = "2"
      /\ confirm_and_create sp_record_product_batch answers mfg_id recipe_plan_id
           batch_units None (all_staging_query db) db = (db', outcome)).
Proof.
  unfold stage_and_create. intros Hrun Hcall.
  destruct (String.eqb_spec (ans_selection_choice answers) "1") as [Hone|_].
  - left. split; [done|].
    destruct (auto_select_lots_fefo today recipe_plan_id batch_units uuid db)
      as [db1 [[success message] lots]].
    destruct success; simpl in *; [done|by simplify_eq].
  - destruct (String.eqb_spec (ans_selection_choice answers) "2") as [Htwo|_];
      [|by simplify_eq].
    right. split; [done|].
    destruct (all_staging_query db);
      [destruct (negb (String.eqb (ans_proceed answers) "y"));
         [by simplify_eq|]|]; done.
Qed.

(** X6.  The procedure is only ever called for a recipe plan of the user's
    own manufacturer: when a run gets to the call, the manufacturer passed
    is the user's, the recipe plan passed exists, its product type is the
    one passed and belongs to that manufacturer, the units passed are the
    integer answered, and the confirmation was answered with y. *)
Theorem batches_only_for_own_recipes u answers uuid today db db' outcome
    call listed :
  create_product_batch sp_record_product_batch u answers uuid today db
  = (db', outcome) ->
  outcome_call outcome = Some (call, listed) ->
  _get_manufacturer_id u = Some (call_manufacturer_id call)
  /\ ans_batch_units answers = Int (call_produced_units call)
  /\ ans_confirm answers = "y"
  /\ exists rp pt,
       recipe_plan_tbl db !! call_recipe_plan_id call = Some rp
       /\ call_product_type_id call = rp_product_type_id rp
       /\ product_type_tbl db !! rp_product_type_id rp = Some pt
       /\ pt_manufacturer_id pt = call_manufacturer_id call.
Proof.
  intros Hrun Hcall.
  apply create_product_batch_staged in Hrun
    as [[_ Hout]|(mfg_id & recipe_plan_id & units & Hchosen & Hunits & Hrun)].
  { by destruct outcome. }
  destruct Hchosen as (Hmfg & _ & _ & _ & Hcheck).
  apply recipe_check_query_Some in Hcheck as (rp & pt & Hrp & Hpt & Hown).
  assert (Hparams :
    exists session_token staging db1,
      recipe_plan_tbl db1 = recipe_plan_tbl db
      /\ confirm_and_create sp_record_product_batch answers mfg_id recipe_plan_id
           units session_token staging db1 = (db', outcome)).
  { destruct (stage_and_create_call _ _ _ _ _ _ _ _ _ _ _ Hrun Hcall)
      as [[_ Hcreate]|[_ Hcreate]]; [|by eauto].
    do 3 eexists. split; [|exact Hcreate].
    destruct (auto_select_lots_fefo_run today recipe_plan_id units uuid db)
      as (pre & post & _ & _ & ->). done. }
  destruct Hparams as (session_token & staging & db1 & Hsame & Hcreate).
  destruct (confirm_and_create_outcome _ _ _ _ _ _ _ _ _ _ _ Hcreate Hcall)
    as (rp' & Hrp' & -> & _ & Hyes & _).
  rewrite Hsame, Hrp in Hrp'. injection Hrp' as <-. simpl.
  split; [done|]. split; [done|]. split; [done|]. by exists rp, pt.
Qed.

(** X7.  Without the FEFO choice the function writes nothing itself: the
    database a run leaves is the one the procedure left, when the run got
    to the call, and otherwise the database it started with. *)
Theorem only_the_procedure_writes_without_fefo u answers uuid today db db'
    outcome :
  ans_selection_choice answers <> "1" ->
  create_product_batch sp_record_product_batch u answers uuid today db
  = (db', outcome) ->
  match outcome_call outcome with
  | Some (call, _) => db' = (sp_record_product_batch call db).2
  | None => db' = db
  end.
Proof.
  intros Hchoice Hrun.
  apply create_product_batch_staged in Hrun
    as [[-> Hout]|(mfg_id & recipe_plan_id & units & _ & _ & Hrun)].
  { by destruct outcome. }
  destruct (outcome_call outcome) as [[call listed]|] eqn:Hcall.
  - destruct (stage_and_create_call _ _ _ _ _ _ _ _ _ _ _ Hrun Hcall)
      as [[? _]|[_ Hcreate]]; [done|].
    destruct (confirm_and_create_outcome _ _ _ _ _ _ _ _ _ _ _ Hcreate Hcall)
      as (_ & _ & _ & _ & _ & Hsp).
    destruct (sp_record_product_batch call db) as [[result|] d];
      by simplify_eq.
  - unfold stage_and_create in Hrun.
    destruct (String.eqb_spec (ans_selection_choice answers) "1"); [done|].
    unfold confirm_and_create in Hrun.
    repeat case_match; simplify_eq; done.
Qed.

(** X8.  When the call of the procedure raises after the FEFO choice, the
    rows of the session are deleted from the database the procedure left:
    none remains under the token. *)
Theorem failed_creation_cleans_session u answers uuid today db db' call listed :
  ans_selection_choice answers = "1" ->
  uuid <> "" ->
  create_product_batch sp_record_product_batch u answers uuid today db
  = (db', CreationError call listed) ->
  db' = delete_staging uuid
          (sp_record_product_batch call
             (auto_select_lots_fefo today (call_recipe_plan_id call)
                (call_produced_units call) uuid db).1).2
  /\ Forall (fun r => sc_session_token r <> uuid) (staging_consumption_tbl db').
Proof.
  intros Hchoice Huuid Hrun.
  apply create_product_batch_staged in Hrun
    as [[_ Hout]|(mfg_id & recipe_plan_id & units & _ & _ & Hrun)]; [done|].
  assert (Hcall : outcome_call (CreationError call listed) = Some (call, listed))
    by done.
  destruct (stage_and_create_call _ _ _ _ _ _ _ _ _ _ _ Hrun Hcall)
    as [[_ Hcreate]|[Htwo _]]; [|congruence].
  destruct (confirm_and_create_outcome _ _ _ _ _ _ _ _ _ _ _ Hcreate Hcall)
    as (rp & _ & Hparams & _ & _ & Hsp).
  assert (Hrid : call_recipe_plan_id call = recipe_plan_id) by (by rewrite Hparams).
  assert (Hunits : call_produced_units call = units) by (by rewrite Hparams).
  rewrite Hrid, Hunits.
  destruct (sp_record_product_batch call _) as [[result|] d]; [done|].
  injection Hsp as ->. simpl.
  destruct (String.eqb_spec uuid ""); [done|]. simpl.
  split; [done|].
  apply Forall_forall. intros r Hr.
  by apply list_elem_of_filter in Hr as [? _].
Qed.

End MoreRuns.

(** ** The rows listed before the confirmation *)

Lemma recipe_item_select_ingredient db recipe_plan_id produced_units rpi item :
  recipe_item_select db recipe_plan_id produced_units rpi = Some item ->
  is_Some (ingredient_tbl db !! ri_ingredient_id item).
Proof.
  unfold recipe_item_select.
  destruct (ingredient_tbl db !! rpi_ingredient_id rpi) as [i|] eqn:Hi; [|done].
  destruct (rpi_recipe_plan_id rpi =? recipe_plan_id); [|done].
  intros [= <-]. simpl. by rewrite Hi.
Qed.

Lemma listed_quantities db (rows : list staging_consumption) :
  Forall (fun r => exists l, staging_listing_select db r = Some l
                             /\ sl_qty_oz l = sc_qty_oz r) rows ->
  sl_qty_oz <$> omap (staging_listing_select db) rows = sc_qty_oz <$> rows.
Proof.
  induction 1 as [|r rows (l & Hl & Hqty) _ IH]; [done|].
  simpl. rewrite Hl. simpl. f_equal; [exact Hqty|exact IH].
Qed.

Lemma item_rows_listed today db session_token recipe_plan_id produced_units item :
  item ∈ recipe_items_query db recipe_plan_id produced_units ->
  Forall (fun r => exists l, staging_listing_select db r = Some l
                             /\ sl_qty_oz l = sc_qty_oz r)
    (item_rows today db session_token item).
Proof.
  intros Hitem.
  apply elem_of_recipe_items in Hitem as (rpi & _ & Hsel).
  apply recipe_item_select_ingredient in Hsel as [i Hi].
  eapply Forall_impl; [apply item_rows_drawn|].
  intros r (_ & ib & Hib & (Hing & _) & _).
  unfold staging_listing_select. rewrite Hib, Hing, Hi. eauto.
Qed.

(** X9.  After a successful selection under a new token, the rows listed
    for confirmation are the rows the selection staged: none is lost in the
    joins with the lot and ingredient tables, their number is the number of
    lots the selection reported, and their quantities are the staged ones. *)
Theorem fefo_listing_shows_the_rows today recipe_plan_id produced_units
    session_token db db' msg lots :
  fresh_token session_token db ->
  auto_select_lots_fefo today recipe_plan_id produced_units session_token db
  = (db', (true, msg, lots)) ->
  exists rows,
    staging_consumption_tbl db' = staging_consumption_tbl db ++ rows
    /\ Z.of_nat (length (session_staging_query db' session_token)) = lots
    /\ sl_qty_oz <$> session_staging_query db' session_token
       ≡ₚ sc_qty_oz <$> rows.
Proof.
  intros Hfresh Hrun.
  destruct (auto_select_lots_fefo_cases today recipe_plan_id produced_units
              session_token db)
    as [[_ Hcase]|[(_ & _ & Hcase)|(pre & item & post & m & _ & _ & _ & Hcase)]];
    rewrite Hrun in Hcase; [done| |done].
  injection Hcase as -> _ ->.
  set (items := recipe_items_query db recipe_plan_id produced_units).
  set (rows := items ≫= item_rows today db session_token).
  exists rows. split; [done|].
  assert (Hlisted :
    sl_qty_oz <$> session_staging_query
                    (with_staging db (staging_consumption_tbl db ++ rows))
                    session_token
    ≡ₚ sc_qty_oz <$> rows).
  { unfold session_staging_query.
    rewrite merge_sort_Permutation.
    cbn [staging_consumption_tbl with_staging].
    rewrite filter_app, (filter_none _ (staging_consumption_tbl db)) by exact Hfresh.
    rewrite (filter_all _ rows).
    - simpl. change (staging_listing_select
                       (with_staging db (staging_consumption_tbl db ++ rows)))
        with (staging_listing_select db).
      rewrite listed_quantities; [done|].
      apply Forall_bind, Forall_forall. intros item Hitem.
      by eapply item_rows_listed.
    - apply Forall_bind, Forall_forall. intros item _. simpl.
      eapply Forall_impl; [apply item_rows_drawn|]. by intros r [? _]. }
  split; [|exact Hlisted].
  apply Permutation_length in Hlisted. rewrite !length_fmap in Hlisted.
  by rewrite Hlisted.
Qed.

(** * Further properties of [trace_product_recall] *)

Section MoreTraces.

Variable sp_trace_recall : trace_call -> database -> option (list recall_row).

(** X10.  The recall procedure is always called with exactly one target:
    after the first choice with the ingredient id that was typed in digits
    and no lot number, after the second with the lot number typed, which is
    not empty, and no ingredient id. *)
Theorem trace_has_one_target answers db call :
  outcome_trace (trace_product_recall sp_trace_recall answers db) = Some call ->
  (ans_trace_choice answers = "1"
   /\ (exists n, ans_ingredient_id answers = IdDigits n
                 /\ trace_ingredient_id call = Some n)
   /\ trace_lot_number call = None)
  \/ (ans_trace_choice answers = "2"
      /\ ans_lot_number answers <> ""
      /\ trace_ingredient_id call = None
      /\ trace_lot_number call = Some (ans_lot_number answers)).
Proof.
  unfold trace_product_recall.
  destruct (String.eqb_spec (ans_trace_choice answers) "1") as [Hone|_].
  - destruct (ans_ingredient_id answers) as [| |n]; [done..|].
    rewrite run_trace_call. intros [= <-]. left. eauto.
  - destruct (String.eqb_spec (ans_trace_choice answers) "2") as [Htwo|_];
      [|done].
    destruct (String.eqb_spec (ans_lot_number answers) "") as [|Hlot]; [done|].
    rewrite run_trace_call. intros [= <-]. by right.
Qed.

End MoreTraces.

(** * Recipe plan management *)

Lemma one_line_recipe_items db recipe_plan_id produced_units :
  one_line_per_ingredient db ->
  NoDup (ri_ingredient_id <$> recipe_items_query db recipe_plan_id produced_units).
Proof.
  unfold one_line_per_ingredient, recipe_items_query.
  rewrite merge_sort_Permutation.
  induction (recipe_plan_item_tbl db) as [|rpi rows IH]; [constructor|].
  rewrite fmap_cons, NoDup_cons. intros [Hnotin Hnodup]. simpl.
  destruct (recipe_item_select db recipe_plan_id produced_units rpi)
    as [item|] eqn:Hsel; [|by apply IH].
  rewrite fmap_cons. apply NoDup_cons. split; [|by apply IH].
  intros Hin. apply Hnotin.
  apply list_elem_of_fmap in Hin as (item' & Heq & Hin).
  apply list_elem_of_omap in Hin as (rpi' & Hrpi' & Hsel').
  apply recipe_item_select_Some in Hsel as (Hrid & Hing & _).
  apply recipe_item_select_Some in Hsel' as (Hrid' & Hing' & _).
  apply list_elem_of_fmap. exists rpi'. split; [|done].
  congruence.
Qed.

Lemma one_line_insert db recipe_plan_id ingredient_id qty :
  one_line_per_ingredient db ->
  line_query db recipe_plan_id ingredient_id = [] ->
  one_line_per_ingredient
    (with_recipe_items db
       (recipe_plan_item_tbl db
          ++ [ {| rpi_recipe_plan_id := recipe_plan_id;
                  rpi_ingredient_id := ingredient_id;
                  rpi_qty_oz_per_unit := qty |} ])).
Proof.
  unfold one_line_per_ingredient, line_query. simpl. intros Hnodup Hnone.
  rewrite fmap_app. apply NoDup_app. split; [done|]. split.
  - intros pair Hin Hnew. apply list_elem_of_singleton in Hnew as ->.
    apply list_elem_of_fmap in Hin as (rpi & [= Hrid Hing] & Hin).
    eapply (filter_nil_not_elem_of _ _ rpi); [exact Hnone| |exact Hin].
    by split.
  - apply NoDup_singleton.
Qed.

Lemma one_line_update db qty recipe_plan_id ingredient_id :
  one_line_per_ingredient db ->
  one_line_per_ingredient
    (with_recipe_items db
       ((fun rpi => if decide (is_line recipe_plan_id ingredient_id rpi)
                    then set_qty qty rpi else rpi)
          <$> recipe_plan_item_tbl db)).
Proof.
  unfold one_line_per_ingredient. simpl. intros Hnodup.
  rewrite <- list_fmap_compose.
  erewrite list_fmap_ext; [exact Hnodup|].
  intros i rpi _. simpl. by case_decide.
Qed.

Lemma one_line_filter db (P : recipe_plan_item -> Prop)
    `{!forall rpi, Decision (P rpi)} :
  one_line_per_ingredient db ->
  one_line_per_ingredient
    (with_recipe_items db (filter P (recipe_plan_item_tbl db))).
Proof.
  unfold one_line_per_ingredient. simpl. intros Hnodup.
  eapply sublist_NoDup; [exact Hnodup|].
  apply fmap_sublist, sublist_filter.
Qed.

Section Recipes.

Variable lastrowid : database -> Z.
Variable raises : statement -> database -> bool.
Variable oz_of : string -> option Z.

(** Whatever holds of the database and is kept by an insert of a line the
    plan does not have, by an update and by a deletion of lines of the
    plan, holds after the ingredient management. *)
Lemma manage_ingredients_keeps (P : database -> Prop) recipe_plan_id :
  (forall db ingredient_id qty,
     P db -> line_query db recipe_plan_id ingredient_id = [] ->
     P (execute lastrowid
          (InsertRecipePlanItem recipe_plan_id ingredient_id qty) db)) ->
  (forall db ingredient_id qty,
     P db ->
     P (execute lastrowid
          (UpdateRecipePlanItem qty recipe_plan_id ingredient_id) db)) ->
  (forall db ingredient_id,
     P db ->
     P (execute lastrowid (DeleteRecipePlanItem recipe_plan_id ingredient_id) db)) ->
  forall tape current_ingredients db,
    P db ->
    P (manage_ingredients lastrowid raises oz_of recipe_plan_id tape
         current_ingredients db).1.
Proof.
  intros Hinsert Hupdate Hdelete tape.
  remember (length tape) as n eqn:Hn. revert tape Hn.
  induction n as [n IH] using lt_wf_ind. intros tape -> current db Hdb.
  assert (Hrec : forall tape' current' db',
            (length tape' < length tape)%nat -> P db' ->
            P (manage_ingredients lastrowid raises oz_of recipe_plan_id tape'
                 current' db').1).
  { intros tape' current' db' Hlt Hdb'. by eapply IH. }
  clear IH.
  destruct tape as [|sub_choice tape1]; [done|]. simpl.
  destruct (String.eqb sub_choice "0"); [done|].
  destruct (String.eqb sub_choice "1").
  { destruct (all_ingredients_query db); [apply Hrec; [simpl; lia|done]|].
    destruct tape1 as [|ing_id tape2]; [done|].
    destruct (String.eqb ing_id ""); [apply Hrec; [simpl; lia|done]|].
    destruct (line_query db recipe_plan_id ing_id) eqn:Hline;
      [|apply Hrec; [simpl; lia|done]].
    destruct tape2 as [|qty tape3]; [done|].
    destruct (oz_of qty) as [q|]; [|apply Hrec; [simpl; lia|done]].
    unfold run_statement.
    destruct (raises _ db); apply Hrec; try (simpl; lia); try done.
    by apply Hinsert. }
  destruct (String.eqb sub_choice "2").
  { destruct current; [apply Hrec; [simpl; lia|done]|].
    destruct tape1 as [|ing_id tape2]; [done|].
    destruct (String.eqb ing_id ""); [apply Hrec; [simpl; lia|done]|].
    destruct (line_query db recipe_plan_id ing_id) eqn:Hline;
      [apply Hrec; [simpl; lia|done]|].
    destruct tape2 as [|qty tape3]; [done|].
    destruct (oz_of qty) as [q|]; [|apply Hrec; [simpl; lia|done]].
    unfold run_statement.
    destruct (raises _ db); apply Hrec; try (simpl; lia); try done.
    by apply Hupdate. }
  destruct (String.eqb sub_choice "3").
  { destruct current; [apply Hrec; [simpl; lia|done]|].
    destruct tape1 as [|ing_id tape2]; [done|].
    destruct (String.eqb ing_id ""); [apply Hrec; [simpl; lia|done]|].
    destruct (line_query db recipe_plan_id ing_id) eqn:Hline;
      [apply Hrec; [simpl; lia|done]|].
    destruct tape2 as [|confirm tape3]; [done|].
    destruct (String.eqb confirm "yes"); [|apply Hrec; [simpl; lia|done]].
    unfold run_statement.
    destruct (raises _ db); apply Hrec; try (simpl; lia); try done.
    by apply Hdelete. }
  apply Hrec; [simpl; lia|done].
Qed.

(** The same for [update_recipe_plan], whose other branches write no
    modelled column. *)
Lemma update_recipe_plan_keeps (P : database -> Prop) u answers db :
  (forall recipe_plan_id mfg_id,
     up_recipe_plan_id answers = Some recipe_plan_id ->
     _get_manufacturer_id u = Some mfg_id ->
     plan_of db recipe_plan_id mfg_id = true ->
     forall tape current_ingredients,
       P (manage_ingredients lastrowid raises oz_of recipe_plan_id tape
            current_ingredients db).1) ->
  P db ->
  P (update_recipe_plan lastrowid raises oz_of u answers db).1.
Proof.
  intros Hmenu Hdb. unfold update_recipe_plan.
  destruct (_get_manufacturer_id u) as [mfg_id|] eqn:Hmfg; [|done].
  destruct (String.eqb mfg_id ""); [done|].
  destruct (up_recipe_plan_id answers) as [recipe_plan_id|] eqn:Hplan; [|done].
  destruct (plan_of db recipe_plan_id mfg_id) eqn:Hown; [|done]. simpl.
  destruct (String.eqb (up_choice answers) "1").
  { destruct (String.eqb (up_new_notes answers) ""); [done|].
    unfold run_statement. by destruct (raises _ db). }
  destruct (String.eqb (up_choice answers) "2").
  { specialize (Hmenu recipe_plan_id mfg_id eq_refl eq_refl Hown
                  (up_ingredients answers)
                  (current_ingredients_query db recipe_plan_id)).
    by destruct (manage_ingredients _ _ _ _ _ _ _). }
  by destruct (String.eqb (up_choice answers) "0").
Qed.

(** X11.  [update_recipe_plan] keeps the recipe plans at one line per
    ingredient: if no plan has two lines for one ingredient before, none has
    after, whatever is answered and whichever statements the server
    refuses; and then the recipe query of a selection returns each
    ingredient once. *)
Theorem update_recipe_plan_keeps_one_line u answers db :
  one_line_per_ingredient db ->
  let db' := (update_recipe_plan lastrowid raises oz_of u answers db).1 in
  one_line_per_ingredient db'
  /\ forall recipe_plan_id produced_units,
       NoDup (ri_ingredient_id
                <$> recipe_items_query db' recipe_plan_id produced_units).
Proof.
  intros Hdb db'.
  assert (Hdb' : one_line_per_ingredient db').
  { apply update_recipe_plan_keeps; [|done].
    intros recipe_plan_id _ _ _ _ tape current.
    apply manage_ingredients_keeps; [| | |done].
    - intros d ing q Hd Hline. by apply one_line_insert.
    - intros d ing q Hd. by apply one_line_update.
    - intros d ing Hd. by apply one_line_filter. }
  split; [done|]. intros recipe_plan_id produced_units.
  by apply one_line_recipe_items.
Qed.

(** The lines of a plan. *)
Lemma update_recipe_plan_others_kept u answers db recipe_plan_id :
  ~ (up_recipe_plan_id answers = Some recipe_plan_id
     /\ exists mfg_id, _get_manufacturer_id u = Some mfg_id
                       /\ plan_of db recipe_plan_id mfg_id = true) ->
  let db' := (update_recipe_plan lastrowid raises oz_of u answers db).1 in
  db' = with_recipe_items db (recipe_plan_item_tbl db')
  /\ filter (fun rpi => rpi_recipe_plan_id rpi = recipe_plan_id)
       (recipe_plan_item_tbl db')
     = filter (fun rpi => rpi_recipe_plan_id rpi = recipe_plan_id)
         (recipe_plan_item_tbl db).
Proof.
  intros Hother db'.
  apply (update_recipe_plan_keeps
           (fun d => d = with_recipe_items db (recipe_plan_item_tbl d)
                     /\ filter (fun rpi => rpi_recipe_plan_id rpi = recipe_plan_id)
                          (recipe_plan_item_tbl d)
                        = filter (fun rpi => rpi_recipe_plan_id rpi = recipe_plan_id)
                            (recipe_plan_item_tbl db)));
    [|split; [by destruct db|done]].
  intros chosen mfg_id Hchosen Hmfg Hown tape current.
  assert (Hne : chosen <> recipe_plan_id).
  { intros ->. apply Hother. eauto. }
  apply manage_ingredients_keeps; [| | |split; [by destruct db|done]].
  - intros d ing q [Hd Hlines] _. simpl. split; [by rewrite Hd|].
    rewrite filter_app, Hlines, filter_cons_False, app_nil_r; [done|].
    simpl. congruence.
  - intros d ing q [Hd Hlines]. simpl. split; [by rewrite Hd|].
    rewrite <- Hlines. clear Hlines Hd.
    induction (recipe_plan_item_tbl d) as [|rpi rows IH]; [done|].
    rewrite fmap_cons, !filter_cons, IH.
    destruct (decide (is_line chosen ing rpi)) as [[Hrid _]|_]; [|done].
    simpl. rewrite !decide_False by congruence. done.
  - intros d ing [Hd Hlines]. simpl. split; [by rewrite Hd|].
    rewrite <- Hlines. clear Hlines Hd.
    induction (recipe_plan_item_tbl d) as [|rpi rows IH]; [done|].
    rewrite !filter_cons.
    destruct (decide (~ is_line chosen ing rpi)) as [Hkeep|Hdrop].
    + rewrite filter_cons, IH. done.
    + rewrite IH. rewrite decide_False; [done|].
      intros Hrid. apply Hdrop. intros [Hc _]. congruence.
Qed.

(** X12.  [update_recipe_plan] writes only lines of the plan chosen, and
    only when that plan is of the user's manufacturer: every table but the
    recipe lines is left as it was, and the lines of every other plan, and
    of a plan of another manufacturer, are the same before and after. *)
Theorem update_recipe_plan_touches_own_plan_only u answers db recipe_plan_id :
  ~ (up_recipe_plan_id answers = Some recipe_plan_id
     /\ exists mfg_id, _get_manufacturer_id u = Some mfg_id
                       /\ plan_of db recipe_plan_id mfg_id = true) ->
  let db' := (update_recipe_plan lastrowid raises oz_of u answers db).1 in
  db' = with_recipe_items db (recipe_plan_item_tbl db')
  /\ filter (fun rpi => rpi_recipe_plan_id rpi = recipe_plan_id)
       (recipe_plan_item_tbl db')
     = filter (fun rpi => rpi_recipe_plan_id rpi = recipe_plan_id)
         (recipe_plan_item_tbl db)
  /\ forall produced_units,
       recipe_items_query db' recipe_plan_id produced_units
       = recipe_items_query db recipe_plan_id produced_units.
Proof.
  intros Hother db'.
  destruct (update_recipe_plan_others_kept u answers db recipe_plan_id Hother)
    as [Hdb' Hlines].
  fold db' in Hdb', Hlines. split; [done|]. split; [done|].
  intros produced_units. unfold recipe_items_query. f_equal.
  assert (Hsel : forall d (rows : list recipe_plan_item),
            omap (recipe_item_select d recipe_plan_id produced_units) rows
            = omap (recipe_item_select d recipe_plan_id produced_units)
                (filter (fun rpi => rpi_recipe_plan_id rpi = recipe_plan_id) rows)).
  { intros d rows. induction rows as [|rpi rows IH]; [done|].
    rewrite filter_cons.
    destruct (decide (rpi_recipe_plan_id rpi = recipe_plan_id)) as [Heq|Hne].
    - simpl.
      destruct (recipe_item_select d recipe_plan_id produced_units rpi);
        [f_equal|]; exact IH.
    - assert (Hnone : recipe_item_select d recipe_plan_id produced_units rpi
                      = None).
      { unfold recipe_item_select.
        destruct (ingredient_tbl d !! rpi_ingredient_id rpi); [|done].
        by destruct (Z.eqb_spec (rpi_recipe_plan_id rpi) recipe_plan_id). }
      simpl. rewrite Hnone. exact IH. }
  rewrite (Hsel db'), (Hsel db), Hlines.
  rewrite Hdb'. reflexivity.
Qed.

End Recipes.

(** ** Creating and deleting plans *)

Lemma plan_of_true db recipe_plan_id mfg_id :
  plan_of db recipe_plan_id mfg_id = true <->
  exists rp pt,
    recipe_plan_tbl db !! recipe_plan_id = Some rp
    /\ product_type_tbl db !! rp_product_type_id rp = Some pt
    /\ pt_manufacturer_id pt = mfg_id.
Proof.
  unfold plan_of, recipe_check_query. split.
  - destruct (recipe_plan_tbl db !! recipe_plan_id) as [rp|]; [|done].
    destruct (product_type_tbl db !! rp_product_type_id rp) as [pt|] eqn:Hpt;
      [|done].
    destruct (String.eqb_spec (pt_manufacturer_id pt) mfg_id); [|done].
    intros _. by exists rp, pt.
  - intros (rp & pt & -> & -> & Hown).
    apply String.eqb_eq in Hown. by rewrite Hown.
Qed.

Lemma plan_of_recipe_check db recipe_plan_id mfg_id :
  plan_of db recipe_plan_id mfg_id = true
  <-> recipe_check_query db recipe_plan_id mfg_id <> [].
Proof.
  unfold plan_of. by destruct (recipe_check_query db recipe_plan_id mfg_id).
Qed.

(** A manufacturer with a plan has plans listed. *)
Lemma plan_of_active db recipe_plan_id mfg_id :
  plan_of db recipe_plan_id mfg_id = true ->
  active_recipes_query db mfg_id <> [].
Proof.
  intros (rp & pt & Hrp & Hpt & Hown)%plan_of_true Hnone.
  assert (Hin : {| rl_recipe_plan_id := recipe_plan_id;
                   rl_product_name := pt_name pt;
                   rl_standard_batch_units := pt_standard_batch_units pt;
                   rl_num_ingredients :=
                     Z.of_nat
                       (length
                          (filter (fun rpi => rpi_recipe_plan_id rpi = recipe_plan_id)
                             (recipe_plan_item_tbl db))) |}
                ∈ active_recipes_query db mfg_id).
  { unfold active_recipes_query.
    rewrite merge_sort_Permutation, list_elem_of_omap.
    exists (recipe_plan_id, rp). split; [by apply elem_of_map_to_list|].
    unfold recipe_listing_select. simpl. rewrite Hpt.
    apply String.eqb_eq in Hown. by rewrite Hown. }
  rewrite Hnone in Hin. by apply elem_of_nil in Hin.
Qed.

Section Plans.

Variable lastrowid : database -> Z.
Variable raises : statement -> database -> bool.
Variable oz_of : string -> option Z.

Lemma _add_recipe_ingredients_lines recipe_plan_id tape db :
  exists new,
    (_add_recipe_ingredients lastrowid raises oz_of recipe_plan_id tape db).1
    = with_recipe_items db (recipe_plan_item_tbl db ++ new)
    /\ Forall (fun rpi => rpi_recipe_plan_id rpi = recipe_plan_id) new.
Proof.
  remember (length tape) as n eqn:Hn. revert tape db Hn.
  induction n as [n IH] using lt_wf_ind. intros tape db ->.
  assert (Hnone : db = with_recipe_items db (recipe_plan_item_tbl db ++ []))
    by (rewrite app_nil_r; by destruct db).
  destruct tape as [|ing_id [|qty tape2]]; simpl.
  - exists []. done.
  - exists []. by destruct (String.eqb ing_id "").
  - destruct (String.eqb ing_id ""); [by exists []|].
    assert (Hrec : forall d,
              exists new,
                (_add_recipe_ingredients lastrowid raises oz_of recipe_plan_id
                   tape2 d).1
                = with_recipe_items d (recipe_plan_item_tbl d ++ new)
                /\ Forall (fun rpi => rpi_recipe_plan_id rpi = recipe_plan_id) new).
    { intros d. eapply IH; [|reflexivity]. simpl. lia. }
    destruct (String.eqb qty ""); [apply Hrec|].
    destruct (oz_of qty) as [q|]; [|apply Hrec].
    unfold run_statement.
    destruct (raises _ db); [apply Hrec|].
    destruct (Hrec (execute lastrowid
                      (InsertRecipePlanItem recipe_plan_id ing_id q) db))
      as (new & Hdb & Hnew).
    eexists (_ :: new). rewrite Hdb. simpl. rewrite <- app_assoc. simpl.
    split; [reflexivity|]. by constructor.
Qed.

(** X13.  The ingredients entered for a plan are appended as lines of that
    plan: [_add_recipe_ingredients] leaves every other table and every
    line already there as they were, and each line it adds belongs to the
    plan it was called for.  (It does not look whether the plan already
    has a line for the ingredient.) *)
Theorem add_recipe_ingredients_appends_lines recipe_plan_id tape db :
  exists new,
    (_add_recipe_ingredients lastrowid raises oz_of recipe_plan_id tape db).1
    = with_recipe_items db (recipe_plan_item_tbl db ++ new)
    /\ Forall (fun rpi => rpi_recipe_plan_id rpi = recipe_plan_id) new
    /\ (length new <= length tape / 2)%nat.
Proof.
  remember (length tape) as n eqn:Hn. revert tape db Hn.
  induction n as [n IH] using lt_wf_ind. intros tape db ->.
  assert (Hnone : db = with_recipe_items db (recipe_plan_item_tbl db ++ []))
    by (rewrite app_nil_r; by destruct db).
  destruct tape as [|ing_id [|qty tape2]].
  - exists []. simpl. split; [done|]. split; [done|]. lia.
  - exists []. simpl. destruct (String.eqb ing_id "");
      (split; [done|]); (split; [done|]); simpl; lia.
  - assert (Hhalf : (length (ing_id :: qty :: tape2) / 2
                     = S (length tape2 / 2))%nat).
    { simpl length. change (S (S (length tape2))) with (2 + length tape2)%nat.
      rewrite (Nat.add_comm 2), <- (Nat.mul_1_l 2) at 1.
      rewrite Nat.div_add by lia. lia. }
    rewrite Hhalf.
    assert (Hrec : forall d,
              exists new,
                (_add_recipe_ingredients lastrowid raises oz_of recipe_plan_id
                   tape2 d).1
                = with_recipe_items d (recipe_plan_item_tbl d ++ new)
                /\ Forall (fun rpi => rpi_recipe_plan_id rpi = recipe_plan_id) new
                /\ (length new <= length tape2 / 2)%nat).
    { intros d. eapply IH; [|reflexivity]. simpl. lia. }
    assert (Hskip : exists new,
              (_add_recipe_ingredients lastrowid raises oz_of recipe_plan_id
                 tape2 db).1
              = with_recipe_items db (recipe_plan_item_tbl db ++ new)
              /\ Forall (fun rpi => rpi_recipe_plan_id rpi = recipe_plan_id) new
              /\ (length new <= S (length tape2 / 2))%nat).
    { destruct (Hrec db) as (new & ? & ? & ?). exists new.
      split; [done|]. split; [done|]. lia. }
    set (half := (length tape2 / 2)%nat) in *. simpl.
    destruct (String.eqb ing_id "").
    { exists []. split; [done|]. split; [done|]. simpl. lia. }
    destruct (String.eqb qty ""); [apply Hskip|].
    destruct (oz_of qty) as [q|]; [|apply Hskip].
    unfold run_statement.
    destruct (raises _ db); [apply Hskip|].
    destruct (Hrec (execute lastrowid
                      (InsertRecipePlanItem recipe_plan_id ing_id q) db))
      as (new & Hdb & Hnew & Hlen).
    eexists (_ :: new). rewrite Hdb. simpl. rewrite <- app_assoc. simpl.
    split; [reflexivity|]. split; [by constructor|]. lia.
Qed.

(** X14.  A run of [create_recipe_plan] that creates a plan creates it for
    a product type of the user's manufacturer, under the id the table
    assigns, and adds only lines of the new plan; the plan then passes the
    checks of [create_product_batch] for that user.  A run that does not
    create a plan leaves the database as it was. *)
Theorem created_plan_can_be_chosen u answers db db' outcome :
  recipe_plan_tbl db !! lastrowid db = None ->
  create_recipe_plan lastrowid raises oz_of u answers db = (db', outcome) ->
  match outcome with
  | PlanCreated new_id _ =>
      exists mfg_id product_type_id new,
        _get_manufacturer_id u = Some mfg_id
        /\ cp_product_type_id answers = Some product_type_id
        /\ own_product_type db product_type_id mfg_id = true
        /\ new_id = lastrowid db
        /\ db' = with_recipe_plans db
                   (<[new_id := {| rp_product_type_id := product_type_id |}]>
                      (recipe_plan_tbl db))
                   (recipe_plan_item_tbl db ++ new)
        /\ Forall (fun rpi => rpi_recipe_plan_id rpi = new_id) new
        /\ forall batch_answers,
             ans_recipe_plan_id batch_answers = Some new_id ->
             recipe_chosen u batch_answers db' mfg_id new_id
  | _ => db' = db
  end.
Proof.
  intros Hfresh. unfold create_recipe_plan.
  destruct (_get_manufacturer_id u) as [mfg_id|] eqn:Hmfg;
    [|by intros [= <- <-]].
  destruct (String.eqb_spec mfg_id "") as [|Hname]; [by intros [= <- <-]|].
  destruct (cp_product_type_id answers) as [product_type_id|] eqn:Htype;
    [|by intros [= <- <-]].
  destruct (own_product_type db product_type_id mfg_id) eqn:Hown; simpl;
    [|by intros [= <- <-]].
  unfold run_statement.
  destruct (raises _ db); [by intros [= <- <-]|].
  set (notes := if String.eqb (cp_notes answers) "" then None
                else Some (cp_notes answers)).
  destruct (_add_recipe_ingredients_lines (lastrowid db) (cp_ingredients answers)
              (execute lastrowid (InsertRecipePlan product_type_id notes) db))
    as (new & Hdb2 & Hnew).
  destruct (_add_recipe_ingredients _ _ _ _ _ _) as [db2 ended].
  simpl in Hdb2. intros [= <- <-].
  exists mfg_id, product_type_id, new.
  split; [done|]. split; [done|]. split; [done|]. split; [done|].
  split; [exact Hdb2|]. split; [done|].
  intros batch_answers Hans.
  assert (Hplan : plan_of db2 (lastrowid db) mfg_id = true).
  { apply plan_of_true. rewrite Hdb2. simpl.
    unfold own_product_type in Hown.
    destruct (product_type_tbl db !! product_type_id) as [pt|] eqn:Hpt; [|done].
    exists {| rp_product_type_id := product_type_id |}, pt.
    rewrite lookup_insert_eq. split; [done|]. split; [done|].
    by apply String.eqb_eq. }
  unfold recipe_chosen. split; [done|]. split; [done|].
  split; [by eapply plan_of_active|]. split; [done|].
  by apply plan_of_recipe_check.
Qed.

Lemma recipe_items_of_deleted_plan db plans recipe_plan_id produced_units :
  recipe_items_query
    (with_recipe_plans db plans
       (filter (fun rpi => rpi_recipe_plan_id rpi <> recipe_plan_id)
          (recipe_plan_item_tbl db)))
    recipe_plan_id produced_units = [].
Proof.
  unfold recipe_items_query. simpl.
  assert (Hnone : omap (recipe_item_select
                          (with_recipe_plans db plans
                             (filter (fun rpi => rpi_recipe_plan_id rpi
                                                 <> recipe_plan_id)
                                (recipe_plan_item_tbl db)))
                          recipe_plan_id produced_units)
                    (filter (fun rpi => rpi_recipe_plan_id rpi <> recipe_plan_id)
                       (recipe_plan_item_tbl db)) = []).
  { induction (recipe_plan_item_tbl db) as [|rpi rows IH]; [done|].
    rewrite filter_cons. case_decide as Hne; [|exact IH].
    simpl. unfold recipe_item_select at 1. simpl.
    destruct (ingredient_tbl db !! rpi_ingredient_id rpi); [|exact IH].
    destruct (Z.eqb_spec (rpi_recipe_plan_id rpi) recipe_plan_id); [done|].
    exact IH. }
  by rewrite Hnone.
Qed.

(** X15.  [delete_recipe_plan] deletes a plan only if it is of the user's
    manufacturer and the confirmation is answered with yes; it then removes
    the plan and its lines and nothing else.  Afterwards a selection for
    the plan finds no ingredients, and a run of [create_product_batch] that
    chooses the plan ends before the lot selection, for whichever user.  A
    run that does not delete leaves the database as it was. *)
Theorem deleted_plan_is_gone u answers db db' outcome :
  delete_recipe_plan lastrowid raises u answers db = (db', outcome) ->
  match outcome with
  | PlanDeleted =>
      exists mfg_id recipe_plan_id,
        _get_manufacturer_id u = Some mfg_id
        /\ dp_recipe_plan_id answers = Some recipe_plan_id
        /\ plan_of db recipe_plan_id mfg_id = true
        /\ dp_confirm answers = "yes"
        /\ db' = with_recipe_plans db
                   (delete recipe_plan_id (recipe_plan_tbl db))
                   (filter (fun rpi => rpi_recipe_plan_id rpi <> recipe_plan_id)
                      (recipe_plan_item_tbl db))
        /\ (forall today produced_units session_token,
              auto_select_lots_fefo today recipe_plan_id produced_units
                session_token db' = (db', (false, NoIngredientsFound, 0)))
        /\ (forall sp u' batch_answers uuid today,
              ans_recipe_plan_id batch_answers = Some recipe_plan_id ->
              exists early,
                create_product_batch sp u' batch_answers uuid today db'
                = (db', early)
                /\ ends_early early)
  | _ => db' = db
  end.
Proof.
  unfold delete_recipe_plan.
  destruct (_get_manufacturer_id u) as [mfg_id|] eqn:Hmfg;
    [|by intros [= <- <-]].
  destruct (String.eqb_spec mfg_id ""); [by intros [= <- <-]|].
  destruct (dp_recipe_plan_id answers) as [recipe_plan_id|] eqn:Hplan;
    [|by intros [= <- <-]].
  destruct (plan_of db recipe_plan_id mfg_id) eqn:Hown; simpl;
    [|by intros [= <- <-]].
  destruct (String.eqb_spec (dp_confirm answers) "yes") as [Hyes|]; simpl;
    [|by intros [= <- <-]].
  unfold run_statement.
  destruct (raises _ db); [by intros [= <- <-]|].
  simpl. rewrite Hown. intros [= <- <-].
  exists mfg_id, recipe_plan_id.
  split; [done|]. split; [done|]. split; [done|]. split; [done|].
  split; [done|]. split.
  - intros today produced_units session_token.
    unfold auto_select_lots_fefo.
    by rewrite recipe_items_of_deleted_plan.
  - intros sp u' batch_answers uuid today Hans.
    unfold create_product_batch.
    destruct (_get_manufacturer_id u') as [mfg'|]; [|by eexists].
    destruct (String.eqb mfg' ""); [by eexists|].
    destruct (active_recipes_query _ mfg'); [by eexists|].
    rewrite Hans.
    unfold recipe_check_query. simpl. rewrite lookup_delete_eq.
    by eexists.
Qed.

End Plans.

(** ** A plan with two lines for one ingredient *)

Section Repeats.

Variable lastrowid : database -> Z.
Variable raises : statement -> database -> bool.
Variable oz_of : string -> option Z.

(** X16.  [_add_recipe_ingredients] does not look for a line the plan
    already has: when the same ingredient is entered twice with readable
    quantities and the server accepts both inserts, the plan has two lines
    for the ingredient, and the recipe query of a selection then returns a
    known ingredient twice. *)
Theorem add_recipe_ingredients_may_repeat recipe_plan_id ing_id qty1 qty2 q1 q2 db :
  ing_id <> "" -> qty1 <> "" -> qty2 <> "" ->
  oz_of qty1 = Some q1 -> oz_of qty2 = Some q2 ->
  (forall st d, raises st d = false) ->
  let db' := (_add_recipe_ingredients lastrowid raises oz_of recipe_plan_id
                [ing_id; qty1; ing_id; qty2; ""] db).1 in
  recipe_plan_item_tbl db'
  = recipe_plan_item_tbl db
      ++ [ {| rpi_recipe_plan_id := recipe_plan_id; rpi_ingredient_id := ing_id;
              rpi_qty_oz_per_unit := q1 |};
           {| rpi_recipe_plan_id := recipe_plan_id; rpi_ingredient_id := ing_id;
              rpi_qty_oz_per_unit := q2 |} ]
  /\ ~ one_line_per_ingredient db'
  /\ (is_Some (ingredient_tbl db !! ing_id) ->
      forall produced_units,
        ~ NoDup (ri_ingredient_id
                   <$> recipe_items_query db' recipe_plan_id produced_units)).
Proof.
  intros Hing Hqty1 Hqty2 Hoz1 Hoz2 Haccept db'.
  assert (Hdb' : db' = with_recipe_items db
            (recipe_plan_item_tbl db
               ++ [ {| rpi_recipe_plan_id := recipe_plan_id;
                       rpi_ingredient_id := ing_id;
                       rpi_qty_oz_per_unit := q1 |};
                    {| rpi_recipe_plan_id := recipe_plan_id;
                       rpi_ingredient_id := ing_id;
                       rpi_qty_oz_per_unit := q2 |} ])).
  { unfold db'. simpl.
    apply String.eqb_neq in Hing, Hqty1, Hqty2.
    rewrite Hing, Hqty1, Hqty2, Hoz1. unfold run_statement.
    rewrite Haccept, Hoz2, Haccept. simpl. by rewrite <- app_assoc. }
  split; [by rewrite Hdb'|]. split.
  - rewrite Hdb'. unfold one_line_per_ingredient. simpl.
    rewrite fmap_app. intros (_ & _ & Hnodup)%NoDup_app. simpl in Hnodup.
    apply NoDup_cons in Hnodup as [Hnotin _]. apply Hnotin. left.
  - intros [i Hi] produced_units. rewrite Hdb'.
    unfold recipe_items_query. rewrite merge_sort_Permutation. simpl.
    rewrite omap_app, fmap_app. intros (_ & _ & Hnodup)%NoDup_app.
    simpl in Hnodup. unfold recipe_item_select in Hnodup. simpl in Hnodup.
    rewrite Hi, Z.eqb_refl in Hnodup. simpl in Hnodup.
    apply NoDup_cons in Hnodup as [Hnotin _]. apply Hnotin. left.
Qed.

End Repeats.

(** * Product type management *)

Section Types.

Variable product_type_rowid : database -> Z.
Variable type_raises : type_statement -> database -> bool.
Variable product_batch_count : database -> Z -> Z.

Lemma own_product_type_true db product_type_id mfg_id :
  own_product_type db product_type_id mfg_id = true <->
  exists pt, product_type_tbl db !! product_type_id = Some pt
             /\ pt_manufacturer_id pt = mfg_id.
Proof.
  unfold own_product_type.
  destruct (product_type_tbl db !! product_type_id) as [pt|].
  - rewrite String.eqb_eq. split; [eauto|]. by intros (? & [= <-] & ?).
  - split; [done|]. by intros (? & ? & _).
Qed.

(** X17.  [update_product_type] never changes who owns what: after any
    run every product type has the manufacturer it had, so every recipe
    plan is of the same manufacturer as before; recipe plans, their lines
    and the stock are left as they were, and only the product type
    chosen, if it is of the user's manufacturer, can have changed. *)
Theorem update_product_type_keeps_owners u answers db :
  let db' := (update_product_type product_type_rowid type_raises u answers db).1 in
  db' = with_product_types db (product_type_tbl db') (recipe_plan_tbl db)
          (recipe_plan_item_tbl db)
  /\ (forall product_type_id,
        pt_manufacturer_id <$> (product_type_tbl db' !! product_type_id)
        = pt_manufacturer_id <$> (product_type_tbl db !! product_type_id))
  /\ (forall recipe_plan_id mfg_id,
        plan_of db' recipe_plan_id mfg_id = plan_of db recipe_plan_id mfg_id)
  /\ (forall product_type_id,
        ut_product_type_id answers <> Some product_type_id ->
        product_type_tbl db' !! product_type_id
        = product_type_tbl db !! product_type_id).
Proof.
  intros db'.
  assert (Hsame : db = with_product_types db (product_type_tbl db)
                         (recipe_plan_tbl db) (recipe_plan_item_tbl db))
    by (by destruct db).
  assert (Hcases :
    db' = db
    \/ exists product_type_id current name units,
         ut_product_type_id answers = Some product_type_id
         /\ product_type_tbl db !! product_type_id = Some current
         /\ db' = with_product_types db
                    (<[product_type_id :=
                         {| pt_manufacturer_id := pt_manufacturer_id current;
                            pt_name := name;
                            pt_standard_batch_units := units |}]>
                       (product_type_tbl db))
                    (recipe_plan_tbl db) (recipe_plan_item_tbl db)).
  { unfold db', update_product_type.
    destruct (_get_manufacturer_id u) as [mfg_id|]; [|by left].
    destruct (String.eqb mfg_id ""); [by left|].
    destruct (ut_product_type_id answers) as [product_type_id|]; [|by left].
    destruct (product_type_tbl db !! product_type_id) as [current|] eqn:Hcur;
      [|by left].
    destruct (String.eqb_spec (pt_manufacturer_id current) mfg_id) as [Hown|];
      [|by left].
    simpl. unfold run_type_statement.
    destruct (type_raises _ db); [by left|]. simpl.
    unfold own_product_type. rewrite Hcur.
    apply String.eqb_eq in Hown as Hown'. rewrite Hown'. simpl.
    right. exists product_type_id, current. do 2 eexists.
    split; [done|]. split; [done|]. by rewrite Hown. }
  assert (Howners : forall product_type_id,
            pt_manufacturer_id <$> (product_type_tbl db' !! product_type_id)
            = pt_manufacturer_id <$> (product_type_tbl db !! product_type_id)).
  { intros product_type_id.
    destruct Hcases as [->|(chosen & current & name & units & _ & Hcur & ->)];
      [done|].
    simpl. destruct (decide (chosen = product_type_id)) as [->|Hne].
    - by rewrite lookup_insert_eq, Hcur.
    - by rewrite lookup_insert_ne. }
  split; [|split; [exact Howners|split]].
  - destruct Hcases as [->|(? & ? & ? & ? & _ & _ & ->)]; done.
  - intros recipe_plan_id mfg_id.
    assert (Hplans : recipe_plan_tbl db' = recipe_plan_tbl db).
    { destruct Hcases as [->|(? & ? & ? & ? & _ & _ & ->)]; done. }
    unfold plan_of, recipe_check_query. rewrite Hplans.
    destruct (recipe_plan_tbl db !! recipe_plan_id) as [rp|]; [|done].
    specialize (Howners (rp_product_type_id rp)).
    destruct (product_type_tbl db' !! rp_product_type_id rp) as [pt'|];
      destruct (product_type_tbl db !! rp_product_type_id rp) as [pt|];
      simpl in Howners; try done.
    injection Howners as ->.
    by destruct (String.eqb (pt_manufacturer_id pt) mfg_id).
  - intros product_type_id Hother.
    destruct Hcases as [->|(chosen & ? & ? & ? & Hchosen & _ & ->)]; [done|].
    simpl. rewrite lookup_insert_ne; [done|]. congruence.
Qed.

(** X18.  [delete_product_type] deletes a product type only if it is of
    the user's manufacturer, no product batch of it is counted and the
    confirmation is answered with yes.  With the product type go its
    recipe plans and their lines, and nothing else: the plans of other
    product types stay, and a run of [create_product_batch] that chooses a
    plan of the deleted type ends before the lot selection.  A run that
    does not delete leaves the database as it was. *)
Theorem deleted_product_type_is_gone u answers db db' outcome :
  delete_product_type product_type_rowid type_raises product_batch_count u answers db
  = (db', outcome) ->
  match outcome with
  | TypeDeleted =>
      exists mfg_id product_type_id,
        _get_manufacturer_id u = Some mfg_id
        /\ dt_product_type_id answers = Some product_type_id
        /\ own_product_type db product_type_id mfg_id = true
        /\ product_batch_count db product_type_id <= 0
        /\ dt_confirm answers = "yes"
        /\ product_type_tbl db' = delete product_type_id (product_type_tbl db)
        /\ (forall recipe_plan_id rp,
              recipe_plan_tbl db' !! recipe_plan_id = Some rp
              <-> recipe_plan_tbl db !! recipe_plan_id = Some rp
                  /\ rp_product_type_id rp <> product_type_id)
        /\ (forall sp u' batch_answers uuid today recipe_plan_id rp,
              recipe_plan_tbl db !! recipe_plan_id = Some rp ->
              rp_product_type_id rp = product_type_id ->
              ans_recipe_plan_id batch_answers = Some recipe_plan_id ->
              exists early,
                create_product_batch sp u' batch_answers uuid today db'
                = (db', early)
                /\ ends_early early)
  | _ => db' = db
  end.
Proof.
  unfold delete_product_type.
  destruct (_get_manufacturer_id u) as [mfg_id|] eqn:Hmfg;
    [|by intros [= <- <-]].
  destruct (String.eqb mfg_id ""); [by intros [= <- <-]|].
  destruct (dt_product_type_id answers) as [product_type_id|] eqn:Htype;
    [|by intros [= <- <-]].
  destruct (own_product_type db product_type_id mfg_id) eqn:Hown; simpl;
    [|by intros [= <- <-]].
  destruct (Z.ltb_spec 0 (product_batch_count db product_type_id));
    [by intros [= <- <-]|].
  destruct (String.eqb_spec (dt_confirm answers) "yes") as [Hyes|]; simpl;
    [|by intros [= <- <-]].
  unfold run_type_statement.
  destruct (type_raises _ db); [by intros [= <- <-]|].
  simpl. rewrite Hown. intros [= <- <-].
  exists mfg_id, product_type_id.
  split; [done|]. split; [done|]. split; [done|]. split; [done|].
  split; [done|]. split; [done|].
  assert (Hplans : forall recipe_plan_id rp,
            filter (fun kv : Z * recipe_plan =>
                      rp_product_type_id kv.2 <> product_type_id)
              (recipe_plan_tbl db) !! recipe_plan_id = Some rp
            <-> recipe_plan_tbl db !! recipe_plan_id = Some rp
                /\ rp_product_type_id rp <> product_type_id).
  { intros recipe_plan_id rp. by rewrite map_lookup_filter_Some. }
  split; [exact Hplans|].
  intros sp u' batch_answers uuid today recipe_plan_id rp Hrp Hpt Hans.
  unfold create_product_batch.
  destruct (_get_manufacturer_id u') as [mfg'|]; [|by eexists].
  destruct (String.eqb mfg' ""); [by eexists|].
  destruct (active_recipes_query _ mfg'); [by eexists|].
  rewrite Hans. unfold recipe_check_query. simpl.
  destruct (filter _ (recipe_plan_tbl db) !! recipe_plan_id) as [rp'|] eqn:Hrp';
    [|by eexists].
  apply Hplans in Hrp' as [Hrp' Hne]. congruence.
Qed.

(** X19.  [create_product_type] creates a product type only for the
    user's own manufacturer and only when the name, the code and the
    category are given and the batch units are typed in digits; the
    product types already there stay as they are, and the new one can be
    given a recipe plan by the same user at once.  A run that does not
    create leaves the database as it was. *)
Theorem created_product_type_is_owned u answers db db' outcome :
  product_type_tbl db !! product_type_rowid db = None ->
  create_product_type product_type_rowid type_raises u answers db
  = (db', outcome) ->
  match outcome with
  | TypeCreated =>
      exists mfg_id standard_batch_units,
        _get_manufacturer_id u = Some mfg_id
        /\ ct_product_name answers <> ""
        /\ ct_product_code answers <> ""
        /\ ct_category_id answers <> ""
        /\ ct_standard_batch_units answers = IdDigits standard_batch_units
        /\ db' = with_product_types db
                   (<[product_type_rowid db :=
                        {| pt_manufacturer_id := mfg_id;
                           pt_name := ct_product_name answers;
                           pt_standard_batch_units := standard_batch_units |}]>
                      (product_type_tbl db))
                   (recipe_plan_tbl db) (recipe_plan_item_tbl db)
        /\ (forall product_type_id pt,
              product_type_tbl db !! product_type_id = Some pt ->
              product_type_tbl db' !! product_type_id = Some pt)
        /\ own_product_type db' (product_type_rowid db) mfg_id = true
  | _ => db' = db
  end.
Proof.
  intros Hfresh. unfold create_product_type.
  destruct (_get_manufacturer_id u) as [mfg_id|] eqn:Hmfg;
    [|by intros [= <- <-]].
  destruct (String.eqb mfg_id ""); [by intros [= <- <-]|].
  destruct (String.eqb_spec (ct_product_name answers) "");
    [by intros [= <- <-]|].
  destruct (String.eqb_spec (ct_product_code answers) "");
    [by intros [= <- <-]|].
  destruct (String.eqb_spec (ct_category_id answers) "");
    [by intros [= <- <-]|].
  destruct (ct_standard_batch_units answers) as [| |units] eqn:Hunits;
    [by intros [= <- <-]..|].
  unfold run_type_statement.
  destruct (type_raises _ db); [by intros [= <- <-]|].
  simpl. intros [= <- <-].
  exists mfg_id, units.
  split; [done|]. split; [done|]. split; [done|]. split; [done|].
  split; [done|]. split; [done|]. split.
  - intros product_type_id pt Hpt. simpl.
    rewrite lookup_insert_ne; [done|]. congruence.
  - unfold own_product_type. simpl. rewrite lookup_insert_eq. simpl.
    by apply String.eqb_eq.
Qed.

End Types.

(** * The further properties on the small plant *)


Lemma batches_only_for_own_recipes_witness :
  let run := create_product_batch consume_staging baker (legacy_answers "y")
               "tok" 100 busy_plant in
  let call := {| call_session_token := ""; call_product_type_id := 100;
                 call_recipe_plan_id := 10; call_produced_units := 5;
                 call_manufacturer_id := "MFG001" |} in
  outcome_call run.2 = Some (call, all_staging_query busy_plant)
  /\ _get_manufacturer_id baker = Some "MFG001"
  /\ ans_batch_units (legacy_answers "y") = Int 5
  /\ ans_confirm (legacy_answers "y") = "y"
  /\ exists rp pt,
       recipe_plan_tbl busy_plant !! 10 = Some rp
       /\ 100 = rp_product_type_id rp
       /\ product_type_tbl busy_plant !! rp_product_type_id rp = Some pt
       /\ pt_manufacturer_id pt = "MFG001".
Proof.
  intros run call.
  assert (Hcall : outcome_call run.2 = Some (call, all_staging_query busy_plant))
    by (vm_compute; reflexivity).
  split; [exact Hcall|].
  apply (batches_only_for_own_recipes consume_staging baker (legacy_answers "y")
           "tok" 100 busy_plant run.1 run.2 call (all_staging_query busy_plant)).
  - apply surjective_pairing.
  - exact Hcall.
Defined.

Lemma only_the_procedure_writes_without_fefo_witness :
  let run := create_product_batch consume_staging baker (legacy_answers "y")
               "tok" 100 busy_plant in
  ans_selection_choice (legacy_answers "y") <> "1"
  /\ match outcome_call run.2 with
     | Some (call, _) => run.1 = (consume_staging call busy_plant).2
     | None => run.1 = busy_plant
     end.
Proof.
  intros run.
  assert (Hchoice : ans_selection_choice (legacy_answers "y") <> "1")
    by discriminate.
  split; [exact Hchoice|].
  apply (only_the_procedure_writes_without_fefo consume_staging baker
           (legacy_answers "y") "tok" 100 busy_plant run.1 run.2 Hchoice).
  apply surjective_pairing.
Defined.

Lemma failed_creation_cleans_session_witness :
  let run := create_product_batch failing_procedure baker
               (fefo_answers 10 (Int 5) "y") "tok" 100 busy_plant in
  run.1 = busy_plant
  /\ Forall (fun r => sc_session_token r <> "tok") (staging_consumption_tbl run.1).
Proof.
  intros run.
  set (call := {| call_session_token := "tok"; call_product_type_id := 100;
                  call_recipe_plan_id := 10; call_produced_units := 5;
                  call_manufacturer_id := "MFG001" |}).
  set (listed := session_staging_query
                   (auto_select_lots_fefo 100 10 5 "tok" busy_plant).1 "tok").
  destruct (failed_creation_cleans_session failing_procedure baker
              (fefo_answers 10 (Int 5) "y") "tok" 100 busy_plant run.1 call listed)
    as [Hdb Hnone].
  - reflexivity.
  - discriminate.
  - vm_compute. reflexivity.
  - split; [|exact Hnone]. rewrite Hdb. vm_compute. reflexivity.
Defined.

Lemma fefo_listing_shows_the_rows_witness :
  let run := auto_select_lots_fefo 100 11 3 "tok" busy_plant in
  fresh_token "tok" busy_plant
  /\ exists rows,
       staging_consumption_tbl run.1 = staging_consumption_tbl busy_plant ++ rows
       /\ Z.of_nat (length (session_staging_query run.1 "tok")) = 3
       /\ sl_qty_oz <$> session_staging_query run.1 "tok" ≡ₚ sc_qty_oz <$> rows.
Proof.
  intros run.
  assert (Hfresh : fresh_token "tok" busy_plant)
    by (repeat constructor; discriminate).
  split; [exact Hfresh|].
  apply (fefo_listing_shows_the_rows 100 11 3 "tok" busy_plant run.1
           (SuccessfullySelected 3) 3 Hfresh).
  vm_compute. reflexivity.
Defined.

Lemma trace_has_one_target_witness :
  let call := {| trace_ingredient_id := None; trace_lot_number := Some "L100";
                 trace_days_window := 20 |} in
  outcome_trace (trace_product_recall nothing_recalled (lot_trace Blank) plant)
  = Some call
  /\ trace_ingredient_id call = None
  /\ trace_lot_number call = Some (ans_lot_number (lot_trace Blank)).
Proof.
  intros call.
  assert (Hcall : outcome_trace
                    (trace_product_recall nothing_recalled (lot_trace Blank) plant)
                  = Some call) by reflexivity.
  split; [exact Hcall|].
  destruct (trace_has_one_target nothing_recalled (lot_trace Blank) plant call Hcall)
    as [[Hone _]|(_ & _ & Hing & Hlot)]; [discriminate Hone|].
  split; [exact Hing|exact Hlot].
Defined.

Lemma update_recipe_plan_keeps_one_line_witness :
  let db' := (update_recipe_plan next_plan_id never_raises sample_oz baker
                add_salt plant).1 in
  one_line_per_ingredient plant
  /\ length (recipe_plan_item_tbl db') = 4%nat
  /\ one_line_per_ingredient db'
  /\ forall recipe_plan_id produced_units,
       NoDup (ri_ingredient_id
                <$> recipe_items_query db' recipe_plan_id produced_units).
Proof.
  intros db'.
  assert (Hplant : one_line_per_ingredient plant) by compute_done.
  split; [exact Hplant|]. split; [vm_compute; reflexivity|].
  exact (update_recipe_plan_keeps_one_line next_plan_id never_raises sample_oz
           baker add_salt plant Hplant).
Defined.

Lemma update_recipe_plan_touches_own_plan_only_witness :
  let db' := (update_recipe_plan next_plan_id never_raises sample_oz baker
                add_salt plant).1 in
  db' <> plant
  /\ forall produced_units,
       recipe_items_query db' 11 produced_units
       = recipe_items_query plant 11 produced_units.
Proof.
  intros db'. split.
  - intros Heq. apply (f_equal (fun d => length (recipe_plan_item_tbl d))) in Heq.
    vm_compute in Heq. discriminate Heq.
  - destruct (update_recipe_plan_touches_own_plan_only next_plan_id never_raises
                sample_oz baker add_salt plant 11) as (_ & _ & Hitems).
    + intros [Hplan _]. discriminate Hplan.
    + exact Hitems.
Defined.

Lemma created_plan_can_be_chosen_witness :
  let run := create_recipe_plan next_plan_id never_raises sample_oz baker
               new_plan plant in
  recipe_plan_tbl plant !! next_plan_id plant = None
  /\ run.2 = PlanCreated 13 LoopLeft
  /\ recipe_chosen baker (fefo_answers 13 (Int 1) "y") run.1 "MFG001" 13.
Proof.
  intros run.
  assert (Hfresh : recipe_plan_tbl plant !! next_plan_id plant = None)
    by (vm_compute; reflexivity).
  split; [exact Hfresh|]. split; [vm_compute; reflexivity|].
  destruct (created_plan_can_be_chosen next_plan_id never_raises sample_oz baker
              new_plan plant run.1 (PlanCreated 13 LoopLeft) Hfresh)
    as (mfg_id & product_type_id & new & Hmfg & _ & _ & _ & _ & _ & Hchosen).
  - vm_compute. reflexivity.
  - injection Hmfg as <-. apply Hchosen. reflexivity.
Defined.

Lemma deleted_plan_is_gone_witness :
  let run := delete_recipe_plan next_plan_id never_raises baker (drop_plan 10)
               plant in
  run.2 = PlanDeleted
  /\ recipe_plan_tbl run.1 !! 10 = None
  /\ auto_select_lots_fefo 100 10 5 "tok" run.1
     = (run.1, (false, NoIngredientsFound, 0)).
Proof.
  intros run.
  split; [vm_compute; reflexivity|]. split; [vm_compute; reflexivity|].
  destruct (deleted_plan_is_gone next_plan_id never_raises baker (drop_plan 10)
              plant run.1 PlanDeleted)
    as (mfg_id & recipe_plan_id & _ & Hplan & _ & _ & _ & Hfefo & _).
  - vm_compute. reflexivity.
  - injection Hplan as <-. apply Hfefo.
Defined.

Lemma add_recipe_ingredients_may_repeat_witness :
  ~ one_line_per_ingredient
      (_add_recipe_ingredients next_plan_id never_raises sample_oz 10
         ["ING002"; "3"; "ING002"; "7"; ""] plant).1.
Proof.
  destruct (add_recipe_ingredients_may_repeat next_plan_id never_raises sample_oz
              10 "ING002" "3" "7" 3 7 plant) as (_ & Hrepeat & _);
    [discriminate|discriminate|discriminate|reflexivity|reflexivity| |].
  - intros st d. reflexivity.
  - exact Hrepeat.
Defined.

Lemma update_product_type_keeps_owners_witness :
  let db' := (update_product_type next_type_id type_never_raises baker
                rename_bread plant).1 in
  pt_name <$> (product_type_tbl db' !! 100) = Some "Loaf"
  /\ pt_manufacturer_id <$> (product_type_tbl db' !! 100) = Some "MFG001"
  /\ plan_of db' 10 "MFG001" = true.
Proof.
  intros db'.
  destruct (update_product_type_keeps_owners next_type_id type_never_raises baker
              rename_bread plant) as (_ & Howner & Hplan & _).
  split; [vm_compute; reflexivity|]. split.
  - fold db' in Howner. rewrite Howner. vm_compute. reflexivity.
  - fold db' in Hplan. rewrite Hplan. vm_compute. reflexivity.
Defined.

Lemma deleted_product_type_is_gone_witness :
  let run := delete_product_type next_type_id type_never_raises no_batches baker
               (drop_type 100) plant in
  run.2 = TypeDeleted
  /\ product_type_tbl run.1 = delete 100 (product_type_tbl plant)
  /\ exists early,
       create_product_batch consume_staging baker (fefo_answers 10 (Int 5) "y")
         "tok" 100 run.1 = (run.1, early)
       /\ ends_early early.
Proof.
  intros run.
  split; [vm_compute; reflexivity|].
  destruct (deleted_product_type_is_gone next_type_id type_never_raises no_batches
              baker (drop_type 100) plant run.1 TypeDeleted)
    as (mfg_id & product_type_id & _ & Htype & _ & _ & _ & Htypes & _ & Hbatch).
  - vm_compute. reflexivity.
  - injection Htype as <-. split; [exact Htypes|].
    apply (Hbatch consume_staging baker (fefo_answers 10 (Int 5) "y") "tok" 100
             10 {| rp_product_type_id := 100 |}); reflexivity.
Defined.

Lemma created_product_type_is_owned_witness :
  let run := create_product_type next_type_id type_never_raises baker new_type
               plant in
  product_type_tbl plant !! next_type_id plant = None
  /\ run.2 = TypeCreated
  /\ own_product_type run.1 101 "MFG001" = true
  /\ product_type_tbl run.1 !! 100 = product_type_tbl plant !! 100.
Proof.
  intros run.
  assert (Hfresh : product_type_tbl plant !! next_type_id plant = None)
    by (vm_compute; reflexivity).
  split; [exact Hfresh|]. split; [vm_compute; reflexivity|].
  destruct (created_product_type_is_owned next_type_id type_never_raises baker
              new_type plant run.1 TypeCreated Hfresh)
    as (mfg_id & units & Hmfg & _ & _ & _ & _ & _ & Hkept & Hown).
  - vm_compute. reflexivity.
  - injection Hmfg as <-. split; [exact Hown|].
    apply (Hkept 100). vm_compute. reflexivity.
Defined.
